(** * GamePathAI backend (backend/main.py): a shallow embedding

    main.py is one FastAPI application: three settings read from the
    process environment when the module is imported, ten GET routes whose
    handlers return literals, one [http] middleware that writes six headers
    on the response it gets back from [call_next], one handler registered
    for [Exception], and the permissive CORS middleware.

    The embedding follows the file top to bottom.  The framework calls are
    given the meaning they have in FastAPI and Starlette:

    - a response is a status, a list of raw headers (lower-cased names, in
      order) and a body; a body is a JSON value, a text, or, for the pages
      the framework generates itself, the call that generates it; the
      transport header [content-length] is left out;
    - an awaited call either returns a value or raises: the [outcome]
      monad;
    - the route table starts with the four documentation routes the
      [FastAPI] constructor registers, for GET and HEAD, followed by the
      routes of main.py in registration order; decorators stacked on one
      function register bottom-up; a route made by [@app.get] accepts GET
      and nothing else;
    - a path is matched the way the compiled pattern of a route matches
      it: the end of the pattern also matches before a final line feed,
      and the [path] convertor does not cross a line feed;
    - when no route matches, the router tries the path with the trailing
      slash toggled and redirects to it if some route matches that;
    - the middleware stack is, from the outside in: the server-error layer
      holding the handler registered for [Exception], then the middlewares
      the file adds (the one added last outermost), then the layer that
      turns [HTTPException] into a response, then the router.

    A request is the ASGI scope the server hands over.  Its target is in
    origin form, so the path starts with a slash, which the record keeps
    implicit; the root path is empty, as [uvicorn.run] at main.py:110 sets
    none; and its strings are text, so that decoding one never fails: a
    path or a query string is held as its UTF-8 bytes, a header value as
    its raw bytes. *)

From stdpp Require Import base strings list gmap pretty.
From Stdlib Require Import ZArith Ascii String.

Local Open Scope string_scope.
Local Open Scope Z_scope.

(** ** Values *)

(** What a handler returns and what [JSONResponse] carries: Python dicts
    (insertion-ordered), lists, strings, ints and bools. *)
#[warnings="-register-all"] Inductive json : Type :=
  | JNull
  | JBool (b : bool)
  | JInt (n : Z)
  | JStr (s : string)
  | JList (items : list json)
  | JDict (fields : list (string * json)).

(** ** Python string helpers *)

(** [str.lower] on the ASCII range, which is all a header name may use. *)
Definition lower_ascii (c : ascii) : ascii :=
  let n := N_of_ascii c in
  if ((65 <=? n) && (n <=? 90))%N then ascii_of_N (n + 32) else c.

Fixpoint lower (s : string) : string :=
  match s with
  | EmptyString => EmptyString
  | String c s' => String (lower_ascii c) (lower s')
  end.

(** [s.split(sep)] for a one-character separator: every occurrence of the
    separator ends a field, so the result has one more field than [s] has
    separators. *)
Fixpoint split (sep : ascii) (s : string) : list string :=
  match s with
  | EmptyString => [EmptyString]
  | String c s' =>
      if Ascii.eqb c sep then EmptyString :: split sep s'
      else match split sep s' with
           | [] => [String c EmptyString]
           | w :: ws => String c w :: ws
           end
  end.

(** [s.endswith(c)] and [s.rstrip(c)] for one character. *)
Fixpoint endswith (c : ascii) (s : string) : bool :=
  match s with
  | EmptyString => false
  | String d EmptyString => Ascii.eqb d c
  | String _ s' => endswith c s'
  end.

Fixpoint rstrip (c : ascii) (s : string) : string :=
  match s with
  | EmptyString => EmptyString
  | String d s' =>
      match rstrip c s' with
      | EmptyString => if Ascii.eqb d c then EmptyString else String d EmptyString
      | rest => String d rest
      end
  end.

(** [urllib.parse.quote(s, safe)]: a byte that is neither a letter, a
    digit, one of [_.-~] nor listed in [safe] is written as a percent sign
    and two upper-case hexadecimal digits. *)
Definition hex_digit (n : N) : ascii :=
  ascii_of_N (if (n <? 10)%N then 48 + n else 55 + n)%N.

Definition in_string (c : ascii) (s : string) : bool :=
  existsb (Ascii.eqb c) (list_ascii_of_string s).

Definition always_safe (c : ascii) : bool :=
  let n := N_of_ascii c in
  ((65 <=? n) && (n <=? 90) || (97 <=? n) && (n <=? 122)
   || (48 <=? n) && (n <=? 57))%N
  || in_string c "_.-~".

Fixpoint quote (safe s : string) : string :=
  match s with
  | EmptyString => EmptyString
  | String c s' =>
      if always_safe c || in_string c safe then String c (quote safe s')
      else String "%" (String (hex_digit (N_of_ascii c / 16))
                         (String (hex_digit (N_of_ascii c mod 16)) (quote safe s')))
  end.

(** [raw.decode("latin-1")], the result held as UTF-8 bytes. *)
Fixpoint utf8_of_latin1 (raw : string) : string :=
  match raw with
  | EmptyString => EmptyString
  | String c raw' =>
      let n := N_of_ascii c in
      if (n <? 128)%N then String c (utf8_of_latin1 raw')
      else String (ascii_of_N (192 + n / 64))
             (String (ascii_of_N (128 + n mod 64)) (utf8_of_latin1 raw'))
  end.

(** [d.get(key)] and [d[key] = value] on a dict of strings, kept in
    insertion order. *)
Fixpoint dict_get (key : string) (d : list (string * string)) : option string :=
  match d with
  | [] => None
  | (k, v) :: d' => if String.eqb k key then Some v else dict_get key d'
  end.

Fixpoint dict_set (key value : string) (d : list (string * string))
  : list (string * string) :=
  match d with
  | [] => [(key, value)]
  | (k, v) :: d' =>
      if String.eqb k key then (k, value) :: d' else (k, v) :: dict_set key value d'
  end.

(** [sep.join(parts)]. *)
Fixpoint join (sep : string) (parts : list string) : string :=
  match parts with
  | [] => EmptyString
  | [w] => w
  | w :: ws => w ++ sep ++ join sep ws
  end.

(** ** Process environment and module globals (main.py:9-15) *)

(** [os.getenv(key, default)]. *)
Definition getenv (environ : gmap string string) (key default : string) : string :=
  match environ !! key with
  | Some value => value
  | None => default
  end.

(** [load_dotenv()]: the variables of the [.env] file are added to
    [os.environ]; a variable that is already set keeps its value. *)
Definition load_dotenv (dotenv environ : gmap string string) : gmap string string :=
  environ ∪ dotenv.

(** The interpreter state the handlers can see: [os.environ] and the three
    module-level names bound at import time. *)
Record process : Type := Process {
  environ : gmap string string;
  ENVIRONMENT : string;
  JWT_SECRET : string;
  API_KEYS : list string
}.

(** Importing the module: lines 10 and 13-15. *)
Definition startup (dotenv os_environ : gmap string string) : process :=
  let env := load_dotenv dotenv os_environ in
  {| environ := env;
     ENVIRONMENT := getenv env "ENVIRONMENT" "development";
     JWT_SECRET := getenv env "JWT_SECRET" "dev-secret-key-for-gamepathai";
     API_KEYS := split "," (getenv env "API_KEYS" "dev-api-key") |}.



(** ** Requests, responses, exceptions *)

Inductive url_scheme : Type := http | https.

(** The ASGI scope of one HTTP request.  The path is [/] followed by
    [target]; header names arrive lower-cased from the server;
    [query_string] is the raw query string and [query_params] the list of
    pairs it parses to; [server] is the address the server listens on. *)
Record request : Type := Request {
  method : string;
  target : string;
  query_params : list (string * string);
  request_headers : list (string * string);
  request_body : string;
  query_string : string;
  scheme : url_scheme;
  server : option (string * Z)
}.

Definition path (req : request) : string := "/" ++ target req.

(** [Headers.get(key)]: the first header whose name is [key.lower()]. *)
Fixpoint headers_get (key : string) (hs : list (string * string)) : option string :=
  match hs with
  | [] => None
  | (k, v) :: hs' => if String.eqb k (lower key) then Some v else headers_get key hs'
  end.

(** [key in headers]. *)
Definition headers_contains (key : string) (hs : list (string * string)) : bool :=
  match headers_get key hs with Some _ => true | None => false end.

(** [QueryParams.get(key)]: the last pair with that key wins. *)
Fixpoint query_get (key : string) (qs : list (string * string)) : option string :=
  match qs with
  | [] => None
  | (k, v) :: qs' =>
      match query_get key qs' with
      | Some v' => Some v'
      | None => if String.eqb k key then Some v else None
      end
  end.

(** A body the framework generates itself, kept as the call that
    generates it: the OpenAPI schema of the application and the three
    HTML pages of its documentation. *)
Inductive document : Type :=
  | openapi_schema (title version description : string)
  | swagger_ui_html (openapi_url title oauth2_redirect_url : string)
  | swagger_ui_oauth2_redirect_html
  | redoc_html (openapi_url title : string).

Inductive content : Type :=
  | NoContent
  | Json (value : json)
  | Text (text : string)
  | Generated (doc : document).

Record response : Type := Response {
  status_code : Z;
  raw_headers : list (string * string);
  body : content
}.

(** [MutableHeaders.__setitem__]: the first header of that name is
    overwritten in place and later duplicates are dropped; a new name is
    appended. *)
Fixpoint headers_set (key value : string) (hs : list (string * string))
  : list (string * string) :=
  match hs with
  | [] => [(lower key, value)]
  | (k, v) :: hs' =>
      if String.eqb k (lower key)
      then (lower key, value)
             :: List.filter (fun kv => negb (String.eqb kv.1 (lower key))) hs'
      else (k, v) :: headers_set key value hs'
  end.

(** [MutableHeaders.update(other)]. *)
Definition headers_update (other hs : list (string * string)) : list (string * string) :=
  fold_left (fun acc kv => headers_set kv.1 kv.2 acc) other hs.

(** [MutableHeaders.add_vary_header(vary)]. *)
Definition add_vary_header (vary : string) (hs : list (string * string))
  : list (string * string) :=
  match headers_get "vary" hs with
  | Some existing => headers_set "vary" (join ", " [existing; vary]) hs
  | None => headers_set "vary" vary hs
  end.

Definition set_header (key value : string) (r : response) : response :=
  {| status_code := status_code r;
     raw_headers := headers_set key value (raw_headers r);
     body := body r |}.

(** [Response.init_headers]: the caller's headers with lower-cased names,
    then the content type unless the caller gave one. *)
Definition init_headers (media_type : option string) (hs : list (string * string))
  : list (string * string) :=
  let raw := map (fun kv => (lower kv.1, kv.2)) hs in
  match media_type with
  | Some mt =>
      if existsb (fun kv => String.eqb kv.1 "content-type") raw then raw
      else raw ++ [("content-type", mt)]
  | None => raw
  end.

Definition JSONResponse (status : Z) (value : json) (hs : list (string * string))
  : response :=
  {| status_code := status;
     raw_headers := init_headers (Some "application/json") hs;
     body := Json value |}.

Definition PlainTextResponse (status : Z) (text : string) (hs : list (string * string))
  : response :=
  {| status_code := status;
     raw_headers := init_headers (Some "text/plain; charset=utf-8") hs;
     body := Text text |}.

Definition EmptyResponse (status : Z) (hs : list (string * string)) : response :=
  {| status_code := status; raw_headers := init_headers None hs; body := NoContent |}.

(** [JSONResponse(self.openapi())] and [HTMLResponse(html)]. *)
Definition SchemaResponse (doc : document) : response :=
  {| status_code := 200;
     raw_headers := init_headers (Some "application/json") [];
     body := Generated doc |}.

Definition HTMLResponse (doc : document) : response :=
  {| status_code := 200;
     raw_headers := init_headers (Some "text/html; charset=utf-8") [];
     body := Generated doc |}.

(** [str(URL(scope=scope))] with the path replaced by [path]: the [Host]
    header if there is one, else the server address, its port left out
    when it is the default one of the scheme. *)
Definition scheme_name (s : url_scheme) : string :=
  match s with http => "http" | https => "https" end.

Definition default_port (s : url_scheme) : Z :=
  match s with http => 80 | https => 443 end.

Definition URL (req : request) (path : string) : string :=
  let url :=
    match dict_get "host" (request_headers req) with
    | Some host_header =>
        scheme_name (scheme req) ++ "://" ++ utf8_of_latin1 host_header ++ path
    | None =>
        match server req with
        | None => path
        | Some (host, port) =>
            if port =? default_port (scheme req)
            then scheme_name (scheme req) ++ "://" ++ host ++ path
            else scheme_name (scheme req) ++ "://" ++ host ++ ":" ++ pretty port ++ path
        end
    end in
  if String.eqb (query_string req) EmptyString then url
  else url ++ "?" ++ query_string req.

(** [RedirectResponse(url)]: status 307, an empty body, the quoted URL
    as [location]. *)
Definition RedirectResponse (url : string) : response :=
  {| status_code := 307;
     raw_headers := headers_set "location" (quote ":/%#?=@[]!$&'()*+,;" url)
                      (init_headers None []);
     body := NoContent |}.

(** A raised Python exception: what the framework dispatches on, and the
    text [str(exc)] gives. *)
Inductive exception_class : Type :=
  | HTTPException (status : Z) (detail : string) (hs : list (string * string))
  | RequestValidationError (errors : json)
  | OtherException (name : string).

Record exception : Type := Exc { exc_class : exception_class; str : string }.

(** The result of awaiting a handler or an inner application. *)
Inductive outcome (A : Type) : Type :=
  | Return (a : A)
  | Raise (e : exception).
Arguments Return {A} a.
Arguments Raise {A} e.

#[global] Instance outcome_ret : MRet outcome := fun A a => Return a.

#[global] Instance outcome_bind : MBind outcome := fun A B k m =>
  match m with
  | Return a => k a
  | Raise e => Raise e
  end.

(** An ASGI application, as seen by one request. *)
Definition ASGIApp : Type := request -> outcome response.

(** ** Route handlers (main.py:34-77, 99-105) *)

Definition health (p : process) : outcome json :=
  Return (JDict [("status", JStr "healthy"); ("version", JStr "1.0.0");
                 ("environment", JStr (ENVIRONMENT p))]).

Definition api_health (p : process) : outcome json :=
  Return (JDict [("status", JStr "healthy"); ("version", JStr "1.0.0");
                 ("environment", JStr (ENVIRONMENT p))]).

Definition games : outcome json :=
  Return (JList [
    JDict [("id", JStr "valorant"); ("name", JStr "Valorant"); ("isOptimized", JBool false)];
    JDict [("id", JStr "csgo"); ("name", JStr "Counter-Strike 2"); ("isOptimized", JBool true)];
    JDict [("id", JStr "fortnite"); ("name", JStr "Fortnite"); ("isOptimized", JBool false)]]).

Definition ml_game_detection : outcome json :=
  Return (JList [
    JDict [("id", JStr "valorant"); ("name", JStr "Valorant"); ("isDetected", JBool true)];
    JDict [("id", JStr "csgo"); ("name", JStr "Counter-Strike 2"); ("isDetected", JBool true)]]).

Definition metrics_ping : outcome json :=
  Return (JDict [("value", JInt 35); ("unit", JStr "ms");
                 ("timestamp", JStr "2025-05-05T12:00:00Z")]).

Definition metrics_jitter : outcome json :=
  Return (JDict [("value", JInt 5); ("unit", JStr "ms");
                 ("timestamp", JStr "2025-05-05T12:00:00Z")]).

Definition metrics_system : outcome json :=
  Return (JDict [("cpu", JInt 45); ("memory", JInt 60); ("gpu", JInt 50);
                 ("timestamp", JStr "2025-05-05T12:00:00Z")]).

Definition catch_all (rest_of_path : string) : outcome json :=
  Return (JDict [("message", JStr "Esta rota deve ser servida pelo frontend")]).

(** ** Routing *)

(** The two shapes of route path main.py uses: a literal path, and a
    literal prefix followed by one parameter with the [path] convertor,
    as in [/{rest_of_path:path}]. *)
Inductive path_template : Type :=
  | Exact (literal : string)
  | Capture (prefix name : string).

(** A registered route.  [endpoint] is what the router hands a matched
    request to; it answers with a response or raises. *)
Record route : Type := Route {
  route_path : path_template;
  methods : list string;
  endpoint : process -> request -> list (string * string) -> outcome response
}.

Fixpoint strip_prefix (prefix s : string) : option string :=
  match prefix with
  | EmptyString => Some s
  | String c prefix' =>
      match s with
      | EmptyString => None
      | String d s' => if Ascii.eqb c d then strip_prefix prefix' s' else None
      end
  end.

Definition LF : ascii := "010"%char.

(** The end of a compiled pattern, [$]: the end of the string, or the
    place before a line feed that ends it. *)
Definition at_end (s : string) : bool :=
  String.eqb s EmptyString || String.eqb s (String LF EmptyString).

(** The [path] convertor, [.*], followed by the end of the pattern:
    every character up to the first line feed, which has to end the
    string.  The result is what the convertor captured. *)
Fixpoint match_rest (s : string) : option string :=
  match s with
  | EmptyString => Some EmptyString
  | String c s' =>
      if Ascii.eqb c LF
      then (if String.eqb s' EmptyString then Some EmptyString else None)
      else match match_rest s' with
           | Some captured => Some (String c captured)
           | None => None
           end
  end.

(** [path_regex.match(p)] for the pattern compiled from a route path. *)
Definition match_path (t : path_template) (p : string) : option (list (string * string)) :=
  match t with
  | Exact literal =>
      match strip_prefix literal p with
      | Some rest => if at_end rest then Some [] else None
      | None => None
      end
  | Capture prefix name =>
      match strip_prefix prefix p with
      | Some rest =>
          match match_rest rest with
          | Some captured => Some [(name, captured)]
          | None => None
          end
      | None => None
      end
  end.

Inductive Match : Type :=
  | NONE
  | PARTIAL (path_params : list (string * string))
  | FULL (path_params : list (string * string)).

(** [Route.matches]: the path has to match; the method decides between a
    full and a partial match. *)
Definition matches (r : route) (req : request) : Match :=
  match match_path (route_path r) (path req) with
  | None => NONE
  | Some path_params =>
      if existsb (String.eqb (method req)) (methods r)
      then FULL path_params else PARTIAL path_params
  end.

(** What the router settles on: the first full match, else the first
    partial match, else nothing. *)
Inductive resolution : Type :=
  | Found (r : route) (path_params : list (string * string))
  | WrongMethod (r : route)
  | NotFound.

Fixpoint resolve (rs : list route) (req : request) (partial : option route) : resolution :=
  match rs with
  | [] => match partial with Some r => WrongMethod r | None => NotFound end
  | r :: rs' =>
      match matches r req with
      | FULL path_params => Found r path_params
      | PARTIAL _ =>
          resolve rs' req (match partial with Some r0 => Some r0 | None => Some r end)
      | NONE => resolve rs' req partial
      end
  end.

(** The path the router tries when no route matches: without its
    trailing slashes if it ends in one, with a slash added if not. *)
Definition redirect_path (p : string) : string :=
  if endswith "/" p then rstrip "/" p else p ++ "/".

Definition matches_path (p : string) (r : route) : bool :=
  match match_path (route_path r) p with Some _ => true | None => false end.

(** The router.  A full match is handed to its endpoint; a partial match
    is raised as [HTTPException] 405 with the methods of the route; with
    no match, and a path other than [/], the router redirects to the path
    with the trailing slash toggled if some route matches that one, and
    raises [HTTPException] 404 if none does. *)
Definition Router (rs : list route) (p : process) : ASGIApp := fun req =>
  match resolve rs req None with
  | Found r path_params => endpoint r p req path_params
  | WrongMethod r =>
      Raise (Exc (HTTPException 405 "Method Not Allowed" [("Allow", join ", " (methods r))])
                 "405: Method Not Allowed")
  | NotFound =>
      if negb (String.eqb (path req) "/")
         && existsb (matches_path (redirect_path (path req))) rs
      then Return (RedirectResponse (URL req (redirect_path (path req))))
      else Raise (Exc (HTTPException 404 "Not Found" []) "404: Not Found")
  end.

(** [@app.get(path)]: a route for GET alone; what the handler returns is
    sent as a JSON response with status 200. *)
Definition get (route_path : path_template)
    (handler : process -> request -> list (string * string) -> outcome json) : route :=
  {| route_path := route_path;
     methods := ["GET"];
     endpoint := fun p req path_params =>
       value ← handler p req path_params;
       Return (JSONResponse 200 value []) |}.

(** [self.add_route(path, endpoint)]: a route for GET, to which the
    framework adds HEAD, whose endpoint makes the response itself.  (The
    methods are a set; the order in which a 405 lists them in [Allow] is
    the one the set happens to have.) *)
Definition add_route (route_path : path_template) (endpoint : request -> response)
  : route :=
  {| route_path := route_path;
     methods := ["GET"; "HEAD"];
     endpoint := fun _ req _ => Return (endpoint req) |}.

(** [FastAPI(title=..., description=..., version=...)] (main.py:17-22):
    with the default URLs, the constructor registers the OpenAPI schema
    and the three documentation pages before any route of the file. *)
Definition FastAPI (title description version : string) : list route := [
  add_route (Exact "/openapi.json")
    (fun _ => SchemaResponse (openapi_schema title version description));
  add_route (Exact "/docs")
    (fun _ => HTMLResponse
                (swagger_ui_html "/openapi.json" (title ++ " - Swagger UI")
                   "/docs/oauth2-redirect"));
  add_route (Exact "/docs/oauth2-redirect")
    (fun _ => HTMLResponse swagger_ui_oauth2_redirect_html);
  add_route (Exact "/redoc")
    (fun _ => HTMLResponse (redoc_html "/openapi.json" (title ++ " - ReDoc")))
].

(** The argument [rest_of_path] of [catch_all]: a path parameter of the
    route that declares it, a query parameter with default [""] of the
    route [/]. *)
Definition path_param (name : string) (path_params : list (string * string)) : string :=
  match dict_get name path_params with
  | Some v => v
  | None => EmptyString
  end.

Definition query_param (name default : string) (req : request) : string :=
  match query_get name (query_params req) with
  | Some v => v
  | None => default
  end.

(** The routes of main.py in registration order.  Of two decorators on
    one function the lower one registers first: [/games] before
    [/api/games], [/{rest_of_path:path}] before [/]. *)
Definition main_routes : list route := [
  get (Exact "/health") (fun p _ _ => health p);
  get (Exact "/api/health") (fun p _ _ => api_health p);
  get (Exact "/games") (fun _ _ _ => games);
  get (Exact "/api/games") (fun _ _ _ => games);
  get (Exact "/ml/game-detection") (fun _ _ _ => ml_game_detection);
  get (Exact "/api/metrics/ping") (fun _ _ _ => metrics_ping);
  get (Exact "/api/metrics/jitter") (fun _ _ _ => metrics_jitter);
  get (Exact "/api/metrics/system") (fun _ _ _ => metrics_system);
  get (Capture "/" "rest_of_path")
      (fun _ _ path_params => catch_all (path_param "rest_of_path" path_params));
  get (Exact "/") (fun _ req _ => catch_all (query_param "rest_of_path" "" req))
].

(** The route table of the application. *)
Definition routes : list route :=
  (FastAPI "GamePathAI API" "API de backend para o GamePathAI" "1.0.0"
   ++ main_routes)%list.

(** ** Exception handling inside the stack *)

(** FastAPI's default handler for [HTTPException]. *)
Definition is_body_allowed_for_status_code (status : Z) : bool :=
  negb ((status <? 200) || (status =? 204) || (status =? 205) || (status =? 304)).

Definition http_exception_handler (status : Z) (detail : string)
    (hs : list (string * string)) : response :=
  if is_body_allowed_for_status_code status
  then JSONResponse status (JDict [("detail", JStr detail)]) hs
  else EmptyResponse status hs.

(** FastAPI's default handler for [RequestValidationError]. *)
Definition request_validation_exception_handler (errors : json) : response :=
  JSONResponse 422 (JDict [("detail", errors)]) [].

(** The innermost layer around the router.  It holds the handlers for
    every exception class except [Exception] itself, which is to say the
    two defaults above; any other exception passes through. *)
Definition ExceptionMiddleware (app : ASGIApp) : ASGIApp := fun req =>
  match app req with
  | Return r => Return r
  | Raise e =>
      match exc_class e with
      | HTTPException status detail hs => Return (http_exception_handler status detail hs)
      | RequestValidationError errors => Return (request_validation_exception_handler errors)
      | OtherException _ => Raise e
      end
  end.

(** ** CORS (main.py:24-32)

    [CORSMiddleware] with [allow_origins], [allow_methods] and
    [allow_headers] all set to the wildcard, [allow_credentials=True] and
    three exposed headers.  With these arguments the middleware allows
    every origin and mirrors requested headers; those are the branches
    written out here. *)

Definition ALL_METHODS : list string :=
  ["DELETE"; "GET"; "HEAD"; "OPTIONS"; "PATCH"; "POST"; "PUT"].

Definition expose_headers : list string :=
  ["X-Original-Location"; "X-Redirect-Blocked"; "X-Request-Path"].

Definition simple_headers : list (string * string) :=
  [("Access-Control-Allow-Origin", "*");
   ("Access-Control-Allow-Credentials", "true");
   ("Access-Control-Expose-Headers", join ", " expose_headers)].

Definition preflight_headers : list (string * string) :=
  [("Vary", "Origin");
   ("Access-Control-Allow-Methods", join ", " ALL_METHODS);
   ("Access-Control-Max-Age", "600");
   ("Access-Control-Allow-Credentials", "true")].

(** The answer to a preflight request, given by the middleware itself. *)
Definition preflight_response (requested_origin requested_method : string)
    (requested_headers : option string) : response :=
  let hs := dict_set "Access-Control-Allow-Origin" requested_origin preflight_headers in
  let failures :=
    if existsb (String.eqb requested_method) ALL_METHODS then [] else ["method"] in
  let hs :=
    match requested_headers with
    | Some h => dict_set "Access-Control-Allow-Headers" h hs
    | None => hs
    end in
  match failures with
  | [] => PlainTextResponse 200 "OK" hs
  | _ => PlainTextResponse 400 ("Disallowed CORS " ++ join ", " failures) hs
  end.

(** What the middleware does to the response of any other request that
    has an [Origin]. *)
Definition allow_explicit_origin (origin : string) (hs : list (string * string))
  : list (string * string) :=
  add_vary_header "Origin" (headers_set "Access-Control-Allow-Origin" origin hs).

Definition cors_send (origin : string) (has_cookie : bool) (r : response) : response :=
  let hs := headers_update simple_headers (raw_headers r) in
  {| status_code := status_code r;
     raw_headers := if has_cookie then allow_explicit_origin origin hs else hs;
     body := body r |}.

(** A preflight request: [OPTIONS] with [Origin] and
    [Access-Control-Request-Method]. *)
Definition is_preflight (req : request) : bool :=
  headers_contains "origin" (request_headers req)
  && String.eqb (method req) "OPTIONS"
  && headers_contains "access-control-request-method" (request_headers req).

Definition CORSMiddleware (app : ASGIApp) : ASGIApp := fun req =>
  let hs := request_headers req in
  match headers_get "origin" hs with
  | None => app req
  | Some origin =>
      match (if String.eqb (method req) "OPTIONS"
             then headers_get "access-control-request-method" hs else None) with
      | Some requested_method =>
          Return (preflight_response origin requested_method
                    (headers_get "access-control-request-headers" hs))
      | None =>
          r ← app req;
          Return (cors_send origin (headers_contains "cookie" hs) r)
      end
  end.

(** ** The [http] middleware (main.py:79-89)

    [await call_next(request)] gives the inner response, or raises what the
    inner application raised; the six assignments follow it. *)

Definition anti_redirect_middleware (call_next : ASGIApp) : ASGIApp := fun req =>
  response ← call_next req;
  let response := set_header "X-No-Redirect" "1" response in
  let response := set_header "Cache-Control" "no-cache, no-store, must-revalidate" response in
  let response := set_header "Pragma" "no-cache" response in
  let response := set_header "Expires" "0" response in
  let response := set_header "X-Content-Type-Options" "nosniff" response in
  let response := set_header "X-Frame-Options" "DENY" response in
  Return response.

(** ** The handler for [Exception] (main.py:91-97) *)

Definition global_exception_handler (req : request) (exc : exception) : response :=
  JSONResponse 500 (JDict [("message", JStr ("Erro interno: " ++ str exc))]) [].

(** The outermost layer.  When the stack is built, the handler registered
    for [Exception] (or for 500) is given to this layer and every other
    handler to [ExceptionMiddleware]; an exception that comes out of
    everything below is answered with that handler's response, sent as it
    is. *)
Definition ServerErrorMiddleware (handler : request -> exception -> response)
    (app : ASGIApp) (req : request) : response :=
  match app req with
  | Return r => r
  | Raise exc => handler req exc
  end.

(** ** The application *)

(** Everything between the server-error layer and the router: the
    middlewares main.py adds, the later one outside the earlier one, and
    the exception layer. *)
Definition user_stack (router : ASGIApp) : ASGIApp :=
  anti_redirect_middleware (CORSMiddleware (ExceptionMiddleware router)).

Definition build_middleware_stack (router : ASGIApp) (req : request) : response :=
  ServerErrorMiddleware global_exception_handler (user_stack router) req.

(** The stack over an arbitrary route table, and [app] itself. *)
Definition application (rs : list route) (p : process) (req : request) : response :=
  build_middleware_stack (Router rs p) req.

Definition app : process -> request -> response := application routes.

(** The six headers [anti_redirect_middleware] writes, as one function on
    responses. *)
Definition stamp (r : response) : response :=
  set_header "X-Frame-Options" "DENY"
    (set_header "X-Content-Type-Options" "nosniff"
      (set_header "Expires" "0"
        (set_header "Pragma" "no-cache"
          (set_header "Cache-Control" "no-cache, no-store, must-revalidate"
            (set_header "X-No-Redirect" "1" r))))).

(** What [CORSMiddleware] does to the response of a request it passes on. *)
Definition cors_out (req : request) (r : response) : response :=
  match headers_get "origin" (request_headers req) with
  | Some origin => cors_send origin (headers_contains "cookie" (request_headers req)) r
  | None => r
  end.

(** The expected body for each path, as one table to compare the router
    with; [environment] is the value the health routes show. *)
Definition fixture (environment p : string) : json :=
  if String.eqb p "/health" || String.eqb p "/api/health" then
    JDict [("status", JStr "healthy"); ("version", JStr "1.0.0");
           ("environment", JStr environment)]
  else if String.eqb p "/games" || String.eqb p "/api/games" then
    JList [
      JDict [("id", JStr "valorant"); ("name", JStr "Valorant"); ("isOptimized", JBool false)];
      JDict [("id", JStr "csgo"); ("name", JStr "Counter-Strike 2"); ("isOptimized", JBool true)];
      JDict [("id", JStr "fortnite"); ("name", JStr "Fortnite"); ("isOptimized", JBool false)]]
  else if String.eqb p "/ml/game-detection" then
    JList [
      JDict [("id", JStr "valorant"); ("name", JStr "Valorant"); ("isDetected", JBool true)];
      JDict [("id", JStr "csgo"); ("name", JStr "Counter-Strike 2"); ("isDetected", JBool true)]]
  else if String.eqb p "/api/metrics/ping" then
    JDict [("value", JInt 35); ("unit", JStr "ms"); ("timestamp", JStr "2025-05-05T12:00:00Z")]
  else if String.eqb p "/api/metrics/jitter" then
    JDict [("value", JInt 5); ("unit", JStr "ms"); ("timestamp", JStr "2025-05-05T12:00:00Z")]
  else if String.eqb p "/api/metrics/system" then
    JDict [("cpu", JInt 45); ("memory", JInt 60); ("gpu", JInt 50);
           ("timestamp", JStr "2025-05-05T12:00:00Z")]
  else
    JDict [("message", JStr "Esta rota deve ser servida pelo frontend")].

(** The paths of the eight routes with a handler of their own. *)
Definition declared_paths : list string :=
  ["/health"; "/api/health"; "/games"; "/api/games"; "/ml/game-detection";
   "/api/metrics/ping"; "/api/metrics/jitter"; "/api/metrics/system"].

(** An exception is unhandled when no layer below the server-error layer
    has a handler for its class. *)
Definition unhandled (e : exception) : Prop :=
  match exc_class e with
  | OtherException _ => True
  | _ => False
  end.

(** ** Sample inputs *)

(** A process started with nothing set, and a few requests. *)
Definition dev : process := startup ∅ ∅.

Definition GET (target : string) : request :=
  {| method := "GET"; target := target; query_params := [];
     request_headers := []; request_body := "";
     query_string := ""; scheme := http; server := Some ("127.0.0.1", 8000) |}.

Definition cross_origin_health : request :=
  {| method := "GET"; target := "health"; query_params := [("verbose", "1")];
     request_headers := [("origin", "https://play.example")];
     request_body := "ignored";
     query_string := "verbose=1"; scheme := http; server := Some ("127.0.0.1", 8000) |}.

Definition preflight_health : request :=
  {| method := "OPTIONS"; target := "health"; query_params := [];
     request_headers := [("origin", "https://play.example");
                         ("access-control-request-method", "GET")];
     request_body := "";
     query_string := ""; scheme := http; server := Some ("127.0.0.1", 8000) |}.

Definition post_games : request :=
  {| method := "POST"; target := "api/games"; query_params := [];
     request_headers := [("content-type", "application/json")];
     request_body := "{}";
     query_string := ""; scheme := http; server := Some ("127.0.0.1", 8000) |}.

(** A handler that raises, and the route table with it in front. *)
Definition boom : exception := Exc (OtherException "RuntimeError") "boom".

Definition routes_with_boom : list route :=
  get (Exact "/boom") (fun _ _ _ => Raise boom) :: routes.

(** ** Measures used in the statements *)

(** How many headers are named [key.lower()]. *)
Definition headers_count (key : string) (hs : list (string * string)) : nat :=
  List.length (List.filter (fun kv => String.eqb kv.1 (lower key)) hs).

(** The header [key] occurs once, with that value. *)
Definition sole_header (key value : string) (hs : list (string * string)) : Prop :=
  headers_get key hs = Some value ∧ headers_count key hs = 1%nat.

(** The raw names of the six headers [anti_redirect_middleware] writes. *)
Definition anti_redirect_names : list string :=
  ["x-no-redirect"; "cache-control"; "pragma"; "expires";
   "x-content-type-options"; "x-frame-options"].

(** How many times a character occurs in a string. *)
Fixpoint count_char (c : ascii) (s : string) : nat :=
  match s with
  | EmptyString => 0%nat
  | String d s' => ((if Ascii.eqb d c then 1 else 0) + count_char c s')%nat
  end.

(** The paths of the documentation routes.  A path is main.py's own when
    only routes of main.py can take it: it holds no line feed and is not
    a documentation path. *)
Definition framework_paths : list string :=
  ["/openapi.json"; "/docs"; "/docs/oauth2-redirect"; "/redoc"].

Definition line_free (s : string) : Prop := count_char LF s = 0%nat.

Definition own_path (p : string) : Prop := line_free p ∧ p ∉ framework_paths.

(** The header names of a response as the router and the exception layer
    make it: each at most once, and none but these three. *)
Definition plain_names : list string := ["allow"; "content-type"; "location"].

Definition plain_headers (hs : list (string * string)) : Prop :=
  NoDup hs.*1 ∧ Forall (fun name => name ∈ plain_names) hs.*1.

(** An inner response that already has caching headers, twice over. *)
Definition cached_response : response :=
  JSONResponse 200 (JDict [])
    [("Cache-Control", "max-age=3600"); ("cache-control", "public"); ("ETag", "abc")].


Definition preflight_with_headers : request :=
  {| method := "OPTIONS"; target := "anything/at/all"; query_params := [];
     request_headers := [("origin", "https://play.example");
                         ("access-control-request-method", "DELETE");
                         ("access-control-request-headers", "x-token")];
     request_body := "";
     query_string := ""; scheme := http; server := Some ("127.0.0.1", 8000) |}.

(** * Properties *)

(** ** Headers *)

Lemma headers_get_set_eq key value hs :
  headers_get key (headers_set key value hs) = Some value.
Proof.
  induction hs as [|[k v] hs IH]; simpl.
  - by rewrite String.eqb_refl.
  - destruct (String.eqb k (lower key)) eqn:E; simpl.
    + by rewrite String.eqb_refl.
    + by rewrite E.
Qed.

Lemma headers_get_filter_ne key key' hs :
  lower key ≠ lower key' →
  headers_get key (List.filter (fun kv => negb (String.eqb kv.1 (lower key'))) hs)
  = headers_get key hs.
Proof.
  intros Hne. induction hs as [|[k v] hs IH]; simpl; [done|].
  destruct (String.eqb k (lower key')) eqn:E; simpl.
  - apply String.eqb_eq in E. subst k.
    destruct (String.eqb (lower key') (lower key)) eqn:E'; [|done].
    apply String.eqb_eq in E'. congruence.
  - by rewrite IH.
Qed.

Lemma headers_get_set_ne key key' value hs :
  lower key ≠ lower key' →
  headers_get key (headers_set key' value hs) = headers_get key hs.
Proof.
  intros Hne. induction hs as [|[k v] hs IH]; simpl.
  - destruct (String.eqb (lower key') (lower key)) eqn:E; [|done].
    apply String.eqb_eq in E. congruence.
  - destruct (String.eqb k (lower key')) eqn:E; simpl.
    + apply String.eqb_eq in E. subst k.
      destruct (String.eqb (lower key') (lower key)) eqn:E'.
      * apply String.eqb_eq in E'. congruence.
      * by apply headers_get_filter_ne.
    + by rewrite IH.
Qed.

Lemma status_code_stamp r : status_code (stamp r) = status_code r.
Proof. reflexivity. Qed.

Lemma body_stamp r : body (stamp r) = body r.
Proof. reflexivity. Qed.

Lemma status_code_cors_out req r : status_code (cors_out req r) = status_code r.
Proof. unfold cors_out. by destruct (headers_get _ _). Qed.

Lemma body_cors_out req r : body (cors_out req r) = body r.
Proof. unfold cors_out. by destruct (headers_get _ _). Qed.

Ltac other_header :=
  rewrite headers_get_set_ne by (vm_compute; discriminate).

(** A stamped response shows the six headers, whatever it held before. *)
Lemma stamp_headers r :
  let hs := raw_headers (stamp r) in
  headers_get "X-No-Redirect" hs = Some "1"
  ∧ headers_get "Cache-Control" hs = Some "no-cache, no-store, must-revalidate"
  ∧ headers_get "Pragma" hs = Some "no-cache"
  ∧ headers_get "Expires" hs = Some "0"
  ∧ headers_get "X-Content-Type-Options" hs = Some "nosniff"
  ∧ headers_get "X-Frame-Options" hs = Some "DENY".
Proof.
  unfold stamp, set_header; cbn [raw_headers].
  repeat split; repeat other_header; apply headers_get_set_eq.
Qed.

Lemma anti_redirect_middleware_Return call_next req r :
  call_next req = Return r →
  anti_redirect_middleware call_next req = Return (stamp r).
Proof. intros H. unfold anti_redirect_middleware. by rewrite H. Qed.

Lemma anti_redirect_middleware_Raise call_next req e :
  call_next req = Raise e →
  anti_redirect_middleware call_next req = Raise e.
Proof. intros H. unfold anti_redirect_middleware. by rewrite H. Qed.

(** ** Strings *)

Lemma count_char_app c s t :
  count_char c (s ++ t) = (count_char c s + count_char c t)%nat.
Proof. induction s as [|d s IH]; simpl; [done|]. rewrite IH. lia. Qed.

Lemma strip_prefix_Some prefix s rest :
  strip_prefix prefix s = Some rest → s = prefix ++ rest.
Proof.
  revert s. induction prefix as [|c prefix IH]; intros s; simpl.
  - by intros [= ->].
  - destruct s as [|d s]; [done|].
    destruct (Ascii.eqb c d) eqn:E; [|done].
    apply Ascii.eqb_eq in E as ->. intros H. by rewrite (IH _ H).
Qed.

Lemma strip_prefix_refl s : strip_prefix s s = Some EmptyString.
Proof. induction s as [|c s IH]; simpl; [done|]. by rewrite Ascii.eqb_refl. Qed.

Lemma append_eq_self s t : s ++ t = s → t = EmptyString.
Proof. induction s as [|c s IH]; simpl; [done|]. intros [= H]. auto. Qed.

Lemma append_nil_r s : s ++ EmptyString = s.
Proof.
  induction s as [|c s IH]; [done|].
  change (String c (s ++ EmptyString) = String c s). by rewrite IH.
Qed.

Lemma line_free_at_end rest : line_free rest → at_end rest = String.eqb rest EmptyString.
Proof.
  unfold at_end, line_free. destruct rest as [|c rest]; [done|]. simpl.
  by destruct (Ascii.eqb c LF).
Qed.

Lemma match_rest_line_free s : line_free s → match_rest s = Some s.
Proof.
  unfold line_free. induction s as [|c s IH]; simpl; [done|].
  destruct (Ascii.eqb c LF); [done|]. intros H. by rewrite IH.
Qed.

(** On a path without line feed a literal pattern matches the path that
    is equal to it, and no other. *)
Lemma match_path_Exact literal p :
  line_free p →
  match_path (Exact literal) p = if String.eqb p literal then Some [] else None.
Proof.
  intros Hp. unfold match_path.
  destruct (strip_prefix literal p) as [rest|] eqn:Hs.
  - apply strip_prefix_Some in Hs. subst p.
    assert (line_free rest) as Hrest.
    { unfold line_free in *. rewrite count_char_app in Hp. lia. }
    rewrite (line_free_at_end _ Hrest).
    destruct (String.eqb rest EmptyString) eqn:E.
    + apply String.eqb_eq in E. subst rest.
      by rewrite append_nil_r, String.eqb_refl.
    + destruct (String.eqb (literal ++ rest) literal) eqn:E'; [|done].
      apply String.eqb_eq, append_eq_self in E'. subst rest. done.
  - destruct (String.eqb p literal) eqn:E; [|done].
    apply String.eqb_eq in E. subst p. by rewrite strip_prefix_refl in Hs.
Qed.

Lemma line_free_target req : line_free (path req) → line_free (target req).
Proof. unfold line_free, path. simpl. done. Qed.

(** ** Routing *)

Lemma strip_prefix_slash req : strip_prefix "/" (path req) = Some (target req).
Proof. reflexivity. Qed.

Lemma matches_get_Exact literal f req :
  line_free (path req) →
  matches (get (Exact literal) f) req =
  if String.eqb (path req) literal
  then (if String.eqb (method req) "GET" then FULL [] else PARTIAL [])
  else NONE.
Proof.
  intros Hp. unfold matches, get; cbn [route_path methods existsb].
  rewrite (match_path_Exact _ _ Hp).
  destruct (String.eqb (path req) literal); [|done].
  by rewrite orb_false_r.
Qed.

Lemma matches_add_route_other literal f req :
  line_free (path req) →
  String.eqb (path req) literal = false →
  matches (add_route (Exact literal) f) req = NONE.
Proof.
  intros Hp E. unfold matches, add_route; cbn [route_path].
  by rewrite (match_path_Exact _ _ Hp), E.
Qed.

Lemma matches_get_Capture name f req :
  line_free (path req) →
  matches (get (Capture "/" name) f) req =
  if String.eqb (method req) "GET"
  then FULL [(name, target req)] else PARTIAL [(name, target req)].
Proof.
  intros Hp. unfold matches, get; cbn [route_path methods match_path existsb].
  rewrite strip_prefix_slash, (match_rest_line_free _ (line_free_target _ Hp)).
  by rewrite orb_false_r.
Qed.

Lemma resolve_cons r rs req partial :
  resolve (r :: rs) req partial =
  match matches r req with
  | FULL path_params => Found r path_params
  | PARTIAL _ =>
      resolve rs req (match partial with Some r0 => Some r0 | None => Some r end)
  | NONE => resolve rs req partial
  end.
Proof. reflexivity. Qed.

Lemma own_path_framework p :
  own_path p →
  String.eqb p "/openapi.json" = false
  ∧ String.eqb p "/docs" = false
  ∧ String.eqb p "/docs/oauth2-redirect" = false
  ∧ String.eqb p "/redoc" = false.
Proof.
  intros [_ Hp]. unfold framework_paths in Hp.
  repeat (apply not_elem_of_cons in Hp as [?%String.eqb_neq Hp]). done.
Qed.

(** The search passes the four documentation routes when the path is
    none of theirs. *)
Lemma resolve_routes_own req partial :
  own_path (path req) →
  resolve routes req partial = resolve main_routes req partial.
Proof.
  intros Hown. destruct (own_path_framework _ Hown) as (H1 & H2 & H3 & H4).
  destruct Hown as [Hp _].
  unfold routes, FastAPI. cbn [List.app].
  by rewrite !resolve_cons, !matches_add_route_other.
Qed.

(** One step of the search through [main_routes] for a GET request:
    either the literal path is the request's, or the search moves on. *)
Ltac next_route Hm Hp :=
  rewrite resolve_cons, (matches_get_Exact _ _ _ Hp), Hm;
  match goal with
  | |- context [String.eqb (path ?r) ?l] =>
      let E := fresh "E" in
      destruct (String.eqb (path r) l) eqn:E;
      [ apply String.eqb_eq in E; unfold fixture; rewrite E; reflexivity
      | cbv beta iota ]
  end.

(** A GET request for a path of main.py's routes is answered by the
    handler of the first route whose path is the request's, and the
    wildcard route takes every other such path. *)
Lemma Router_routes_GET p req :
  method req = "GET" →
  own_path (path req) →
  Router routes p req
  = Return (JSONResponse 200 (fixture (ENVIRONMENT p) (path req)) []).
Proof.
  intros Hm Hown. apply String.eqb_eq in Hm. unfold Router.
  rewrite (resolve_routes_own _ _ Hown). destruct Hown as [Hp _].
  unfold main_routes.
  do 8 next_route Hm Hp.
  rewrite resolve_cons, (matches_get_Capture _ _ _ Hp), Hm. unfold fixture.
  repeat match goal with
         | H : String.eqb _ _ = false |- _ => rewrite H; clear H
         end.
  reflexivity.
Qed.

(** When every route is registered for GET alone, a request with another
    method finds no full match: the router settles on a partial match as
    soon as one route's path matches. *)
Lemma resolve_other_method rs req partial :
  Forall (fun r => methods r = ["GET"]) rs →
  (∀ r0, partial = Some r0 → methods r0 = ["GET"]) →
  method req ≠ "GET" →
  is_Some partial ∨ Exists (fun r => matches r req ≠ NONE) rs →
  ∃ r, resolve rs req partial = WrongMethod r ∧ methods r = ["GET"].
Proof.
  intros Hrs. revert partial.
  induction Hrs as [|r rs Hr Hrs IH]; intros partial Hp Hm Hsome.
  - destruct Hsome as [[r0 ->]|Hex]; [|by apply Exists_nil in Hex].
    exists r0. split; [done|by apply Hp].
  - rewrite resolve_cons. unfold matches in *.
    destruct (match_path (route_path r) (path req)) as [ps|] eqn:Hpath.
    + rewrite Hr. cbn [existsb]. rewrite orb_false_r.
      destruct (String.eqb (method req) "GET") eqn:E.
      { apply String.eqb_eq in E. contradiction. }
      apply IH; [|done|].
      * intros r0. destruct partial as [r1|]; intros [= <-]; [by apply Hp|done].
      * left. by destruct partial.
    + apply IH; [done..|].
      destruct Hsome as [?|Hex]; [by left|right].
      apply Exists_cons in Hex as [Hex|Hex]; [|done].
      by rewrite Hpath in Hex.
Qed.

Lemma routes_GET_only : Forall (fun r => methods r = ["GET"]) main_routes.
Proof. repeat constructor. Qed.

Lemma wildcard_matches req :
  line_free (path req) →
  Exists (fun r => matches r req ≠ NONE) main_routes.
Proof.
  intros Hp. unfold main_routes. do 8 apply Exists_cons_tl. apply Exists_cons_hd.
  rewrite (matches_get_Capture _ _ _ Hp). by destruct (String.eqb _ _).
Qed.

Lemma Router_routes_other p req :
  method req ≠ "GET" →
  own_path (path req) →
  Router routes p req
  = Raise (Exc (HTTPException 405 "Method Not Allowed" [("Allow", "GET")])
               "405: Method Not Allowed").
Proof.
  intros Hm Hown. unfold Router. rewrite (resolve_routes_own _ _ Hown).
  destruct (resolve_other_method main_routes req None) as (r & -> & Hr);
    [apply routes_GET_only|done|done|right; apply wildcard_matches, Hown|].
  by rewrite Hr.
Qed.

(** ** The layers *)

Lemma ExceptionMiddleware_Return app req r :
  app req = Return r → ExceptionMiddleware app req = Return r.
Proof. intros H. unfold ExceptionMiddleware. by rewrite H. Qed.

Lemma ExceptionMiddleware_unhandled app req e :
  app req = Raise e → unhandled e → ExceptionMiddleware app req = Raise e.
Proof.
  intros H He. unfold ExceptionMiddleware. rewrite H.
  unfold unhandled in He. by destruct (exc_class e).
Qed.

Lemma is_preflight_false_inv req origin :
  is_preflight req = false →
  headers_get "origin" (request_headers req) = Some origin →
  (if String.eqb (method req) "OPTIONS"
   then headers_get "access-control-request-method" (request_headers req)
   else None) = None.
Proof.
  unfold is_preflight, headers_contains. intros H Ho. rewrite Ho in H.
  destruct (String.eqb (method req) "OPTIONS"); [|done].
  by destruct (headers_get "access-control-request-method" _).
Qed.

(** A request that is not a preflight goes through to the inner
    application, and its response comes back with the CORS headers added
    when the request had an [Origin]. *)
Lemma CORSMiddleware_pass app req :
  is_preflight req = false →
  CORSMiddleware app req = r ← app req; Return (cors_out req r).
Proof.
  intros H. unfold CORSMiddleware, cors_out.
  destruct (headers_get "origin" (request_headers req)) as [origin|] eqn:Ho.
  - by rewrite (is_preflight_false_inv _ _ H Ho).
  - by destruct (app req).
Qed.

(** A preflight is answered by the CORS layer; the inner application is
    not called. *)
Lemma CORSMiddleware_preflight req :
  is_preflight req = true →
  ∃ origin requested_method,
    headers_get "origin" (request_headers req) = Some origin
    ∧ headers_get "access-control-request-method" (request_headers req)
      = Some requested_method
    ∧ ∀ app, CORSMiddleware app req
        = Return (preflight_response origin requested_method
                    (headers_get "access-control-request-headers" (request_headers req))).
Proof.
  unfold is_preflight, headers_contains, CORSMiddleware. intros H.
  destruct (headers_get "origin" _) as [origin|]; [|done].
  destruct (String.eqb (method req) "OPTIONS"); [|done].
  destruct (headers_get "access-control-request-method" _) as [m|]; [|done].
  by exists origin, m.
Qed.


Lemma GET_not_preflight req : method req = "GET" → is_preflight req = false.
Proof.
  intros H. unfold is_preflight. rewrite H. cbn [String.eqb Ascii.eqb Bool.eqb].
  by rewrite andb_false_r.
Qed.

(** The whole stack, by kind of request. *)
Lemma application_Return rs p req r :
  is_preflight req = false →
  ExceptionMiddleware (Router rs p) req = Return r →
  application rs p req = stamp (cors_out req r).
Proof.
  intros Hpre H. unfold application, build_middleware_stack, ServerErrorMiddleware, user_stack.
  erewrite anti_redirect_middleware_Return; [done|].
  rewrite CORSMiddleware_pass by done. by rewrite H.
Qed.

Lemma application_Raise rs p req e :
  is_preflight req = false →
  Router rs p req = Raise e →
  unhandled e →
  application rs p req = global_exception_handler req e.
Proof.
  intros Hpre H He.
  unfold application, build_middleware_stack, ServerErrorMiddleware, user_stack.
  erewrite anti_redirect_middleware_Raise; [done|].
  rewrite CORSMiddleware_pass by done.
  by rewrite (ExceptionMiddleware_unhandled _ _ _ H He).
Qed.

Lemma application_preflight req :
  is_preflight req = true →
  ∃ origin requested_method,
    ∀ rs p, application rs p req
      = stamp (preflight_response origin requested_method
                 (headers_get "access-control-request-headers" (request_headers req))).
Proof.
  intros H. destruct (CORSMiddleware_preflight req H) as (o & m & _ & _ & Hc).
  exists o, m. intros rs p.
  unfold application, build_middleware_stack, ServerErrorMiddleware, user_stack.
  by erewrite anti_redirect_middleware_Return.
Qed.

(** ** What the router can answer *)

Lemma resolve_Found_elem rs req partial r ps :
  resolve rs req partial = Found r ps → r ∈ rs.
Proof.
  revert partial. induction rs as [|r1 rs IH]; intros partial; simpl.
  - by destruct partial.
  - destruct (matches r1 req).
    + intros H. right. by eapply IH.
    + intros H. right. by eapply IH.
    + intros [= -> _]. by left.
Qed.

Ltac literal_NoDup :=
  repeat (apply NoDup_cons; split;
          [ intros Hin; apply list_elem_of_In in Hin; simpl in Hin;
            repeat (destruct Hin as [Hin|Hin]; [discriminate Hin|]); exact Hin
          | ]);
  apply NoDup_nil_2.

Ltac literal_plain :=
  split; [ cbn; literal_NoDup
         | cbn; repeat constructor; apply list_elem_of_In; simpl; tauto ].

(** Every endpoint of the table answers 200 with a content type as its
    only header, and reads nothing of the process but [ENVIRONMENT]. *)
Lemma routes_endpoints :
  Forall (fun r => ∀ p req ps, ∃ resp,
            endpoint r p req ps = Return resp
            ∧ status_code resp = 200
            ∧ plain_headers (raw_headers resp)
            ∧ ∀ p', ENVIRONMENT p = ENVIRONMENT p' → endpoint r p' req ps = Return resp)
         routes.
Proof.
  unfold routes, FastAPI, main_routes; cbn [List.app].
  repeat (apply List.Forall_cons;
          [ intros p req ps; eexists; split; [reflexivity|];
            split; [reflexivity|]; split; [literal_plain|];
            intros p' HE; cbn; unfold health, api_health; rewrite <- ?HE; reflexivity
          | ]).
  apply List.Forall_nil.
Qed.

(** What comes out of the exception layer around the router, for any
    request: a response with status 200, 307, 404 or 405, with at most
    the headers [allow], [content-type] and [location], which depends on
    the process through [ENVIRONMENT] alone. *)
Lemma inner_response p req :
  ∃ r, ExceptionMiddleware (Router routes p) req = Return r
    ∧ (status_code r = 200 ∨ status_code r = 307
       ∨ status_code r = 404 ∨ status_code r = 405)
    ∧ plain_headers (raw_headers r)
    ∧ ∀ p', ENVIRONMENT p = ENVIRONMENT p' →
        ExceptionMiddleware (Router routes p') req = Return r.
Proof.
  unfold ExceptionMiddleware, Router.
  destruct (resolve routes req None) as [r ps|r|] eqn:Hres.
  - apply resolve_Found_elem in Hres.
    pose proof routes_endpoints as Hall. rewrite Forall_forall in Hall.
    destruct (Hall r Hres p req ps) as (resp & Hr & Hs & Hh & Hp').
    exists resp. rewrite Hr. repeat split; [by left|apply Hh..|].
    intros p' HE. by rewrite (Hp' p' HE).
  - eexists. split; [reflexivity|]. split; [by right; right; right|].
    split; [literal_plain|done].
  - destruct (negb (String.eqb (path req) "/")
              && existsb (matches_path (redirect_path (path req))) routes).
    + eexists. split; [reflexivity|]. split; [by right; left|].
      split; [literal_plain|done].
    + eexists. split; [reflexivity|]. split; [by right; right; left|].
      split; [literal_plain|done].
Qed.

Lemma app_inner p req :
  is_preflight req = false →
  ∃ r, app p req = stamp (cors_out req r)
    ∧ (status_code r = 200 ∨ status_code r = 307
       ∨ status_code r = 404 ∨ status_code r = 405)
    ∧ plain_headers (raw_headers r)
    ∧ ∀ p', ENVIRONMENT p = ENVIRONMENT p' → app p' req = stamp (cors_out req r).
Proof.
  intros Hpre. destruct (inner_response p req) as (r & Hr & Hs & Hh & Hp').
  exists r. split; [by apply application_Return|]. split; [done|]. split; [done|].
  intros p' HE. apply application_Return; [done|]. by apply Hp'.
Qed.

Lemma app_GET p req :
  method req = "GET" →
  own_path (path req) →
  app p req
  = stamp (cors_out req (JSONResponse 200 (fixture (ENVIRONMENT p) (path req)) [])).
Proof.
  intros Hm Hown. apply application_Return; [by apply GET_not_preflight|].
  apply ExceptionMiddleware_Return. by apply Router_routes_GET.
Qed.

Lemma app_other_method p req :
  method req ≠ "GET" →
  is_preflight req = false →
  own_path (path req) →
  app p req
  = stamp (cors_out req
      (JSONResponse 405 (JDict [("detail", JStr "Method Not Allowed")]) [("Allow", "GET")])).
Proof.
  intros Hm Hpre Hown. apply application_Return; [done|].
  unfold ExceptionMiddleware. by rewrite Router_routes_other.
Qed.



Lemma headers_get_cors_out key req r :
  lower key ≠ "access-control-allow-origin" →
  lower key ≠ "access-control-allow-credentials" →
  lower key ≠ "access-control-expose-headers" →
  lower key ≠ "vary" →
  headers_get key (raw_headers (cors_out req r)) = headers_get key (raw_headers r).
Proof.
  intros H1 H2 H3 H4. unfold cors_out.
  destruct (headers_get "origin" _) as [origin|]; [|done].
  unfold cors_send; cbn [raw_headers].
  destruct (headers_contains "cookie" _);
    unfold allow_explicit_origin, add_vary_header, headers_update, simple_headers;
    cbn [fold_left fst snd]; [destruct (headers_get "vary" _)|];
    by rewrite !headers_get_set_ne.
Qed.

(** Every response of [app] has been through [anti_redirect_middleware]. *)
Lemma app_stamped p req : ∃ r, app p req = stamp r.
Proof.
  destruct (is_preflight req) eqn:Hpre.
  - destruct (application_preflight req Hpre) as (o & m & H).
    eexists. apply H.
  - destruct (app_inner p req Hpre) as (r & -> & _). by eexists.
Qed.

(** So every response [app] gives, whatever the route and the status,
    carries the six headers. *)
Lemma app_anti_redirect_headers p req :
  let hs := raw_headers (app p req) in
  headers_get "X-No-Redirect" hs = Some "1"
  ∧ headers_get "Cache-Control" hs = Some "no-cache, no-store, must-revalidate"
  ∧ headers_get "Pragma" hs = Some "no-cache"
  ∧ headers_get "Expires" hs = Some "0"
  ∧ headers_get "X-Content-Type-Options" hs = Some "nosniff"
  ∧ headers_get "X-Frame-Options" hs = Some "DENY".
Proof. destruct (app_stamped p req) as [r ->]. apply stamp_headers. Qed.

(** The answer to an unhandled exception is the handler's response as it
    stands: [anti_redirect_middleware] lies below and has been left by the
    exception, so nothing is added to it. *)
Lemma unhandled_response_headers rs p req e :
  is_preflight req = false →
  Router rs p req = Raise e →
  unhandled e →
  raw_headers (application rs p req) = [("content-type", "application/json")].
Proof. intros Hpre H He. by rewrite (application_Raise _ _ _ _ Hpre H He). Qed.

(** ** The claims *)




(** Claim C2, as stated: a GET request whose path is none of the eight
    declared ones is answered with status 200 and the fallback message.
    It fails for the documentation pages the framework serves itself:
    [/docs] is answered with the Swagger page. *)
Lemma documentation_is_not_the_fallback :
  ¬ (∀ (p : process) (req : request),
       method req = "GET" → path req ∉ declared_paths →
       status_code (app p req) = 200
       ∧ body (app p req) =
         Json (JDict [("message", JStr "Esta rota deve ser servida pelo frontend")])).
Proof.
  intros H. destruct (H dev (GET "docs") eq_refl) as [_ Hb].
  - intros Hin. apply list_elem_of_In in Hin. simpl in Hin.
    repeat (destruct Hin as [Hin|Hin]; [discriminate Hin|]). exact Hin.
  - vm_compute in Hb. discriminate Hb.
Qed.

(** Claim C2, amended.  A GET request whose path is none of the eight
    declared ones and none of the four documentation paths, and holds no
    line feed, is answered with status 200 and the fallback message, and
    [catch_all] returns the same value whatever path segment it is
    given. *)
Theorem unmatched_path_fallback (p : process) (req : request) :
  (method req = "GET" → path req ∉ declared_paths → own_path (path req) →
   status_code (app p req) = 200
   ∧ body (app p req) =
     Json (JDict [("message", JStr "Esta rota deve ser servida pelo frontend")]))
  ∧ (∀ rest_of_path rest_of_path', catch_all rest_of_path = catch_all rest_of_path').
Proof.
  split; [|done]. intros Hm Hp Hown.
  rewrite (app_GET _ _ Hm Hown), status_code_stamp, status_code_cors_out,
    body_stamp, body_cors_out. cbn [status_code body JSONResponse].
  split; [done|]. f_equal. unfold declared_paths in Hp.
  repeat (apply not_elem_of_cons in Hp as [?%String.eqb_neq Hp]).
  unfold fixture.
  repeat match goal with
         | H : String.eqb _ _ = false |- _ => rewrite H; clear H
         end.
  reflexivity.
Qed.

Ltac not_listed :=
  intros Hin; apply list_elem_of_In in Hin; simpl in Hin;
  repeat (destruct Hin as [Hin|Hin]; [discriminate Hin|]); exact Hin.

Lemma unmatched_path_fallback_witness :
  status_code (app dev (GET "dashboard/settings")) = 200
  ∧ body (app dev (GET "dashboard/settings")) =
    Json (JDict [("message", JStr "Esta rota deve ser servida pelo frontend")]).
Proof.
  apply (unmatched_path_fallback dev (GET "dashboard/settings"));
    [reflexivity | not_listed | split; [reflexivity | not_listed]].
Defined.

(** Claim C3.  The response to an unhandled exception does not carry the
    six headers.  When [call_next] raises, [anti_redirect_middleware]
    raises too, before any of its assignments; and with a handler that
    raises in the route table, the request is answered with status 500 and
    none of the six headers, the response being made above the
    middleware. *)
Theorem error_response_lacks_headers :
  anti_redirect_middleware (fun _ => Raise boom) (GET "health") = Raise boom
  ∧ let resp := application routes_with_boom dev (GET "boom") in
    status_code resp = 500
    ∧ headers_get "X-No-Redirect" (raw_headers resp) = None
    ∧ headers_get "Cache-Control" (raw_headers resp) = None
    ∧ headers_get "Pragma" (raw_headers resp) = None
    ∧ headers_get "Expires" (raw_headers resp) = None
    ∧ headers_get "X-Content-Type-Options" (raw_headers resp) = None
    ∧ headers_get "X-Frame-Options" (raw_headers resp) = None.
Proof. split; [reflexivity|]. vm_compute. repeat split. Qed.

(** Claim C4.  When the handler a request is routed to raises an exception
    that no inner layer handles, the response has status 500 and the JSON
    body [{"message": "Erro interno: " + str(exc)}]. *)
Theorem unhandled_exception_response
    (rs : list route) (p : process) (req : request)
    (r : route) (path_params : list (string * string)) (e : exception) :
  is_preflight req = false →
  resolve rs req None = Found r path_params →
  endpoint r p req path_params = Raise e →
  unhandled e →
  status_code (application rs p req) = 500
  ∧ body (application rs p req) =
    Json (JDict [("message", JStr ("Erro interno: " ++ str e))]).
Proof.
  intros Hpre Hr He Hu.
  assert (Router rs p req = Raise e) as H.
  { unfold Router. by rewrite Hr, He. }
  by rewrite (application_Raise _ _ _ _ Hpre H Hu).
Qed.

Lemma unhandled_exception_response_witness :
  status_code (application routes_with_boom dev (GET "boom")) = 500
  ∧ body (application routes_with_boom dev (GET "boom")) =
    Json (JDict [("message", JStr "Erro interno: boom")]).
Proof.
  apply (unhandled_exception_response routes_with_boom dev (GET "boom")
           (get (Exact "/boom") (fun _ _ _ => Raise boom)) [] boom);
    [reflexivity | reflexivity | reflexivity | exact I].
Defined.

(** ** Configuration *)





(** Claim C6, as stated: two GET requests to the same path get identical
    responses.  It fails: the CORS layer adds headers to the response of a
    request that has an [Origin] header. *)
Lemma responses_differ_with_Origin :
  ¬ (∀ (p : process) (r1 r2 : request),
       method r1 = "GET" → method r2 = "GET" → path r1 = path r2 →
       app p r1 = app p r2).
Proof.
  intros H.
  specialize (H dev (GET "health") cross_origin_health eq_refl eq_refl eq_refl).
  apply (f_equal (fun r => headers_get "Access-Control-Allow-Origin" (raw_headers r))) in H.
  vm_compute in H. discriminate H.
Qed.

(** Claim C6, amended.  For the routes main.py declares, which is to say
    for a path that holds no line feed and is not a documentation path,
    two GET requests to the same path get the same status and the same
    body, whatever their query strings, headers and bodies; the whole
    responses, headers included, are identical when the two requests also
    agree on their [Origin] header and on whether they carry a [Cookie]
    header. *)
Theorem response_independent_of_request_content
    (p : process) (r1 r2 : request) :
  method r1 = "GET" → method r2 = "GET" → path r1 = path r2 →
  own_path (path r1) →
  status_code (app p r1) = status_code (app p r2)
  ∧ body (app p r1) = body (app p r2)
  ∧ (headers_get "origin" (request_headers r1) = headers_get "origin" (request_headers r2) →
     headers_contains "cookie" (request_headers r1)
     = headers_contains "cookie" (request_headers r2) →
     app p r1 = app p r2).
Proof.
  intros H1 H2 Hp Hown.
  rewrite (app_GET _ _ H1 Hown), (app_GET _ r2 H2) by (by rewrite <- Hp).
  rewrite Hp, !status_code_stamp, !status_code_cors_out, !body_stamp, !body_cors_out.
  repeat split. intros Ho Hc. unfold cors_out. by rewrite Ho, Hc.
Qed.

Lemma response_independent_of_request_content_witness :
  app dev cross_origin_health
  = app dev {| method := "GET"; target := "health"; query_params := [];
               request_headers := [("accept", "*/*"); ("origin", "https://play.example")];
               request_body := ""; query_string := ""; scheme := https;
               server := None |}.
Proof.
  apply (response_independent_of_request_content dev cross_origin_health
           {| method := "GET"; target := "health"; query_params := [];
              request_headers := [("accept", "*/*"); ("origin", "https://play.example")];
              request_body := ""; query_string := ""; scheme := https;
              server := None |});
    first [reflexivity | split; [reflexivity | not_listed]].
Defined.



(** ** Methods *)




(** ** The key list *)

Lemma split_nonempty sep s : split sep s ≠ [].
Proof.
  destruct s as [|c s]; simpl; [done|].
  destruct (Ascii.eqb c sep); [done|]. by destruct (split sep s).
Qed.

(** Claim C9.  [API_KEYS] is never the empty list: it is [["dev-api-key"]]
    when the variable is not set, and [[""]] when it is set to the empty
    string. *)
Theorem API_KEYS_never_empty (dotenv os_environ : gmap string string) :
  API_KEYS (startup dotenv os_environ) ≠ []
  ∧ (os_environ !! "API_KEYS" = None → dotenv !! "API_KEYS" = None →
     API_KEYS (startup dotenv os_environ) = ["dev-api-key"])
  ∧ (os_environ !! "API_KEYS" = Some "" →
     API_KEYS (startup dotenv os_environ) = [""]).
Proof.
  unfold startup, getenv, load_dotenv; cbn [API_KEYS]. rewrite lookup_union.
  split; [apply split_nonempty|]. split.
  - intros -> ->. reflexivity.
  - intros ->. by destruct (dotenv !! "API_KEYS").
Qed.

Lemma API_KEYS_never_empty_witness :
  API_KEYS (startup ∅ ∅) = ["dev-api-key"]
  ∧ API_KEYS (startup ∅ {["API_KEYS" := ""]}) = [""].
Proof.
  split.
  - apply (API_KEYS_never_empty ∅ ∅); reflexivity.
  - apply (API_KEYS_never_empty ∅ {["API_KEYS" := ""]}). reflexivity.
Defined.

(** ** Totality of the handlers *)




(** * Further properties of the code *)

(** ** The header middleware on an arbitrary inner response *)

Lemma filter_none_id key hs :
  headers_count key hs = 0%nat →
  List.filter (fun kv => negb (String.eqb kv.1 (lower key))) hs = hs.
Proof.
  unfold headers_count. induction hs as [|[k v] hs IH]; simpl; [done|].
  destruct (String.eqb k (lower key)); simpl; [done|].
  intros H. by rewrite IH.
Qed.

Lemma headers_count_filter_eq key hs :
  headers_count key
    (List.filter (fun kv => negb (String.eqb kv.1 (lower key))) hs) = 0%nat.
Proof.
  unfold headers_count. induction hs as [|[k v] hs IH]; simpl; [done|].
  destruct (String.eqb k (lower key)) eqn:E; simpl; [done|]. by rewrite E.
Qed.

Lemma headers_count_filter_ne key key' hs :
  lower key ≠ lower key' →
  headers_count key
    (List.filter (fun kv => negb (String.eqb kv.1 (lower key'))) hs)
  = headers_count key hs.
Proof.
  intros Hne. unfold headers_count.
  induction hs as [|[k v] hs IH]; simpl; [done|].
  destruct (String.eqb k (lower key')) eqn:E; simpl.
  - apply String.eqb_eq in E. subst k.
    destruct (String.eqb (lower key') (lower key)) eqn:E'; [|done].
    apply String.eqb_eq in E'. congruence.
  - destruct (String.eqb k (lower key)); simpl; by rewrite IH.
Qed.

Lemma headers_count_cons key k v hs :
  headers_count key ((k, v) :: hs)
  = if String.eqb k (lower key) then S (headers_count key hs)
    else headers_count key hs.
Proof. unfold headers_count; simpl. by destruct (String.eqb k (lower key)). Qed.

Lemma headers_count_set_eq key value hs :
  headers_count key (headers_set key value hs) = 1%nat.
Proof.
  induction hs as [|[k v] hs IH]; simpl.
  - by rewrite headers_count_cons, String.eqb_refl.
  - destruct (String.eqb k (lower key)) eqn:E.
    + by rewrite headers_count_cons, String.eqb_refl, headers_count_filter_eq.
    + by rewrite headers_count_cons, E.
Qed.

Lemma headers_count_set_ne key key' value hs :
  lower key ≠ lower key' →
  headers_count key (headers_set key' value hs) = headers_count key hs.
Proof.
  intros Hne.
  assert (String.eqb (lower key') (lower key) = false) as Hb.
  { apply String.eqb_neq. congruence. }
  induction hs as [|[k v] hs IH]; simpl.
  - by rewrite headers_count_cons, Hb.
  - destruct (String.eqb k (lower key')) eqn:E.
    + apply String.eqb_eq in E. subst k.
      rewrite !headers_count_cons, Hb. by apply headers_count_filter_ne.
    + rewrite !headers_count_cons, IH. done.
Qed.

Lemma headers_set_same key value hs :
  sole_header key value hs → headers_set key value hs = hs.
Proof.
  intros [Hg Hc]. induction hs as [|[k v] hs IH]; [done|].
  rewrite headers_count_cons in Hc. simpl in *.
  destruct (String.eqb k (lower key)) eqn:E.
  - injection Hg as ->. injection Hc as Hc.
    apply String.eqb_eq in E. subst k. f_equal. by apply filter_none_id.
  - f_equal. by apply IH.
Qed.

Lemma set_header_same key value r :
  sole_header key value (raw_headers r) → set_header key value r = r.
Proof.
  intros H. destruct r as [st hs b]. unfold set_header; simpl in *.
  by rewrite headers_set_same.
Qed.

Ltac other_count :=
  rewrite headers_count_set_ne by (vm_compute; discriminate).

Lemma stamp_sole_headers r :
  let hs := raw_headers (stamp r) in
  sole_header "X-No-Redirect" "1" hs
  ∧ sole_header "Cache-Control" "no-cache, no-store, must-revalidate" hs
  ∧ sole_header "Pragma" "no-cache" hs
  ∧ sole_header "Expires" "0" hs
  ∧ sole_header "X-Content-Type-Options" "nosniff" hs
  ∧ sole_header "X-Frame-Options" "DENY" hs.
Proof.
  unfold stamp, set_header, sole_header; cbn [raw_headers].
  repeat split;
    first [ repeat other_header; apply headers_get_set_eq
          | repeat other_count; apply headers_count_set_eq ].
Qed.


(** Property X2.  Whatever the inner response held under those names, the
    response that leaves [anti_redirect_middleware] has each of the six headers once,
    with the fixed value: earlier values and duplicates are replaced. *)
Theorem anti_redirect_overwrites (call_next : ASGIApp) (req : request) (r : response) :
  call_next req = Return r →
  ∃ r', anti_redirect_middleware call_next req = Return r'
    ∧ sole_header "X-No-Redirect" "1" (raw_headers r')
    ∧ sole_header "Cache-Control" "no-cache, no-store, must-revalidate" (raw_headers r')
    ∧ sole_header "Pragma" "no-cache" (raw_headers r')
    ∧ sole_header "Expires" "0" (raw_headers r')
    ∧ sole_header "X-Content-Type-Options" "nosniff" (raw_headers r')
    ∧ sole_header "X-Frame-Options" "DENY" (raw_headers r').
Proof.
  intros H. exists (stamp r). split.
  - by apply anti_redirect_middleware_Return.
  - apply stamp_sole_headers.
Qed.

Lemma anti_redirect_overwrites_witness :
  ∃ r', anti_redirect_middleware (fun _ => Return cached_response) (GET "health")
        = Return r'
    ∧ sole_header "Cache-Control" "no-cache, no-store, must-revalidate" (raw_headers r').
Proof.
  destruct (anti_redirect_overwrites (fun _ => Return cached_response) (GET "health")
              cached_response eq_refl) as (r' & Hr & _ & Hc & _).
  exists r'. split; [exact Hr | exact Hc].
Defined.

(** Property X3.  The middleware changes nothing else: status, body and
    every header under another name, with its multiplicity, pass
    through. *)
Theorem anti_redirect_preserves (call_next : ASGIApp) (req : request) (r : response) :
  call_next req = Return r →
  ∃ r', anti_redirect_middleware call_next req = Return r'
    ∧ status_code r' = status_code r
    ∧ body r' = body r
    ∧ ∀ key, lower key ∉ anti_redirect_names →
        headers_get key (raw_headers r') = headers_get key (raw_headers r)
        ∧ headers_count key (raw_headers r') = headers_count key (raw_headers r).
Proof.
  intros H. exists (stamp r). split; [by apply anti_redirect_middleware_Return|].
  split; [done|]. split; [done|]. intros key Hk.
  unfold anti_redirect_names in Hk.
  repeat (apply not_elem_of_cons in Hk as [? Hk]).
  unfold stamp, set_header; cbn [raw_headers].
  split.
  - by rewrite !headers_get_set_ne.
  - by rewrite !headers_count_set_ne.
Qed.

Lemma anti_redirect_preserves_witness :
  ∃ r', anti_redirect_middleware (fun _ => Return cached_response) (GET "health")
        = Return r'
    ∧ body r' = Json (JDict [])
    ∧ headers_get "ETag" (raw_headers r') = Some "abc".
Proof.
  destruct (anti_redirect_preserves (fun _ => Return cached_response) (GET "health")
              cached_response eq_refl) as (r' & Hr & _ & Hb & Hk).
  exists r'. split; [exact Hr|]. split; [exact Hb|].
  destruct (Hk "ETag") as [Hg _]; [|exact Hg].
  intros Hin. apply list_elem_of_In in Hin. simpl in Hin.
  repeat (destruct Hin as [Hin|Hin]; [discriminate Hin|]). exact Hin.
Defined.

Lemma stamp_stamp r : stamp (stamp r) = stamp r.
Proof.
  destruct (stamp_sole_headers r) as (H1 & H2 & H3 & H4 & H5 & H6).
  unfold stamp at 1.
  rewrite (set_header_same "X-No-Redirect" "1" (stamp r)) by exact H1.
  rewrite (set_header_same "Cache-Control" _ (stamp r)) by exact H2.
  rewrite (set_header_same "Pragma" _ (stamp r)) by exact H3.
  rewrite (set_header_same "Expires" _ (stamp r)) by exact H4.
  rewrite (set_header_same "X-Content-Type-Options" _ (stamp r)) by exact H5.
  by rewrite (set_header_same "X-Frame-Options" _ (stamp r)) by exact H6.
Qed.

(** Property X4.  Installing the middleware twice gives the same responses
    as installing it once. *)
Theorem anti_redirect_idempotent (call_next : ASGIApp) (req : request) :
  anti_redirect_middleware (anti_redirect_middleware call_next) req
  = anti_redirect_middleware call_next req.
Proof.
  destruct (call_next req) as [r|e] eqn:H.
  - rewrite (anti_redirect_middleware_Return (anti_redirect_middleware call_next) req (stamp r)).
    + rewrite (anti_redirect_middleware_Return call_next req r H). by rewrite stamp_stamp.
    + by apply anti_redirect_middleware_Return.
  - rewrite (anti_redirect_middleware_Raise (anti_redirect_middleware call_next) req e).
    + by rewrite (anti_redirect_middleware_Raise call_next req e H).
    + by apply anti_redirect_middleware_Raise.
Qed.

(** ** Cross-origin behaviour (main.py:24-32) *)

Lemma app_preflight_eq p req origin requested_method :
  method req = "OPTIONS" →
  headers_get "origin" (request_headers req) = Some origin →
  headers_get "access-control-request-method" (request_headers req)
  = Some requested_method →
  app p req
  = stamp (preflight_response origin requested_method
             (headers_get "access-control-request-headers" (request_headers req))).
Proof.
  intros Hm Ho Hr.
  unfold app, application, build_middleware_stack, ServerErrorMiddleware, user_stack.
  erewrite anti_redirect_middleware_Return; [reflexivity|].
  unfold CORSMiddleware. rewrite Ho, Hm. cbn [String.eqb Ascii.eqb Bool.eqb].
  by rewrite Hr.
Qed.

Lemma app_not_preflight p req :
  is_preflight req = false →
  own_path (path req) →
  app p req
  = stamp (cors_out req
      (if String.eqb (method req) "GET"
       then JSONResponse 200 (fixture (ENVIRONMENT p) (path req)) []
       else JSONResponse 405 (JDict [("detail", JStr "Method Not Allowed")])
              [("Allow", "GET")])).
Proof.
  intros Hpre Hown. destruct (String.eqb (method req) "GET") eqn:E.
  - apply String.eqb_eq in E. by apply app_GET.
  - apply String.eqb_neq in E. by apply app_other_method.
Qed.

Lemma headers_get_absent key (hs : list (string * string)) :
  lower key ∉ hs.*1 → headers_get key hs = None.
Proof.
  unfold headers_get. induction hs as [|[k v] hs IH]; simpl; [done|].
  intros [Hk Hhs]%not_elem_of_cons.
  destruct (String.eqb k (lower key)) eqn:E.
  - apply String.eqb_eq in E. congruence.
  - by apply IH.
Qed.


Lemma plain_headers_absent key (hs : list (string * string)) :
  plain_headers hs → lower key ∉ plain_names → headers_get key hs = None.
Proof.
  intros [_ Hall] Hk. apply headers_get_absent. intros Hin.
  rewrite Forall_forall in Hall. by apply Hk, Hall.
Qed.




(** Property X6.  A request without [Origin] gets no CORS header at all,
    whatever its method and path: none of the [Access-Control-] headers
    and no [Vary]. *)
Theorem same_origin_response_headers (p : process) (req : request) :
  headers_get "origin" (request_headers req) = None →
  Forall (fun name => headers_get name (raw_headers (app p req)) = None)
    ["Access-Control-Allow-Origin"; "Access-Control-Allow-Credentials";
     "Access-Control-Expose-Headers"; "Access-Control-Allow-Methods";
     "Access-Control-Allow-Headers"; "Access-Control-Max-Age"; "Vary"].
Proof.
  intros Ho.
  assert (is_preflight req = false) as Hpre.
  { unfold is_preflight, headers_contains. by rewrite Ho. }
  destruct (app_inner p req Hpre) as (r & -> & _ & Hplain & _).
  unfold cors_out. rewrite Ho.
  unfold stamp, set_header; cbn [raw_headers].
  repeat constructor; repeat other_header;
    apply (plain_headers_absent _ _ Hplain); not_listed.
Qed.

Lemma same_origin_response_headers_witness :
  Forall (fun name => headers_get name (raw_headers (app dev post_games)) = None)
    ["Access-Control-Allow-Origin"; "Access-Control-Allow-Credentials";
     "Access-Control-Expose-Headers"; "Access-Control-Allow-Methods";
     "Access-Control-Allow-Headers"; "Access-Control-Max-Age"; "Vary"].
Proof. apply (same_origin_response_headers dev post_games). reflexivity. Defined.

(** Property X7.  A preflight is answered the same way for every path and
    every process: 200 with the body [OK] when the requested method is one of
    the seven known ones and 400 otherwise; the answer names the request's
    origin, lists the seven methods, allows credentials, gives a maximum
    age of 600 and mirrors the requested headers. *)
Theorem preflight_answer (p : process) (req : request) (origin requested_method : string) :
  method req = "OPTIONS" →
  headers_get "origin" (request_headers req) = Some origin →
  headers_get "access-control-request-method" (request_headers req)
  = Some requested_method →
  let resp := app p req in
  let allowed := existsb (String.eqb requested_method) ALL_METHODS in
  status_code resp = (if allowed then 200 else 400)
  ∧ body resp = Text (if allowed then "OK" else "Disallowed CORS method")
  ∧ headers_get "Access-Control-Allow-Origin" (raw_headers resp) = Some origin
  ∧ headers_get "Access-Control-Allow-Methods" (raw_headers resp)
    = Some "DELETE, GET, HEAD, OPTIONS, PATCH, POST, PUT"
  ∧ headers_get "Access-Control-Allow-Credentials" (raw_headers resp) = Some "true"
  ∧ headers_get "Access-Control-Max-Age" (raw_headers resp) = Some "600"
  ∧ headers_get "Vary" (raw_headers resp) = Some "Origin"
  ∧ headers_get "Access-Control-Allow-Headers" (raw_headers resp)
    = headers_get "access-control-request-headers" (request_headers req).
Proof.
  intros Hm Ho Hr resp allowed. subst resp allowed.
  rewrite (app_preflight_eq _ _ _ _ Hm Ho Hr).
  unfold stamp, set_header, preflight_response; cbn [raw_headers].
  destruct (existsb _ _),
    (headers_get "access-control-request-headers" (request_headers req));
    repeat split; repeat other_header; reflexivity.
Qed.

Lemma preflight_answer_witness :
  status_code (app dev preflight_with_headers) = 200
  ∧ headers_get "Access-Control-Allow-Headers"
      (raw_headers (app dev preflight_with_headers)) = Some "x-token".
Proof.
  destruct (preflight_answer dev preflight_with_headers "https://play.example" "DELETE"
              eq_refl eq_refl eq_refl) as (Hs & _ & _ & _ & _ & _ & _ & Hh).
  split; [exact Hs | exact Hh].
Defined.

Lemma is_preflight_true_inv req :
  is_preflight req = true →
  method req = "OPTIONS"
  ∧ ∃ origin requested_method,
      headers_get "origin" (request_headers req) = Some origin
      ∧ headers_get "access-control-request-method" (request_headers req)
        = Some requested_method.
Proof.
  unfold is_preflight, headers_contains. intros H.
  destruct (headers_get "origin" _) as [o|]; [|done].
  destruct (String.eqb (method req) "OPTIONS") eqn:E; [|done].
  destruct (headers_get "access-control-request-method" _) as [m|]; [|done].
  apply String.eqb_eq in E. eauto.
Qed.

(** Property X8.  The response to a request for a path of main.py's
    routes that is not a preflight has a JSON body and says so in its
    content type; the answer to a preflight, for any path, is plain
    text. *)
Theorem body_and_content_type (p : process) (req : request) :
  (is_preflight req = false → own_path (path req) →
   (∃ value, body (app p req) = Json value)
   ∧ headers_get "Content-Type" (raw_headers (app p req)) = Some "application/json")
  ∧ (is_preflight req = true →
     (∃ text, body (app p req) = Text text)
     ∧ headers_get "Content-Type" (raw_headers (app p req))
       = Some "text/plain; charset=utf-8").
Proof.
  split.
  - intros Hpre Hown.
    rewrite (app_not_preflight _ _ Hpre Hown), body_stamp, body_cors_out. split.
    + destruct (String.eqb (method req) "GET"); by eexists.
    + unfold stamp, set_header; cbn [raw_headers]. repeat other_header.
      rewrite headers_get_cors_out by done.
      by destruct (String.eqb (method req) "GET").
  - intros Hpre. destruct (is_preflight_true_inv _ Hpre) as (Hm & o & m & Ho & Hr).
    rewrite (app_preflight_eq _ _ _ _ Hm Ho Hr), body_stamp.
    unfold stamp, set_header, preflight_response; cbn [raw_headers].
    destruct (existsb _ _),
      (headers_get "access-control-request-headers" (request_headers req));
      (split; [by eexists | repeat other_header; reflexivity]).
Qed.

Lemma body_and_content_type_witness :
  headers_get "Content-Type" (raw_headers (app dev post_games)) = Some "application/json"
  ∧ headers_get "Content-Type" (raw_headers (app dev preflight_health))
    = Some "text/plain; charset=utf-8".
Proof.
  split.
  - apply (proj1 (body_and_content_type dev post_games));
      [reflexivity | split; [reflexivity | not_listed]].
  - apply (proj2 (body_and_content_type dev preflight_health)). reflexivity.
Defined.

(** Property X9.  The three headers the CORS configuration exposes to
    browsers are set
    on no response. *)
Theorem exposed_headers_never_set (p : process) (req : request) :
  Forall (fun name => headers_get name (raw_headers (app p req)) = None) expose_headers.
Proof.
  unfold expose_headers. destruct (is_preflight req) eqn:Hpre.
  - destruct (is_preflight_true_inv _ Hpre) as (Hm & o & m & Ho & Hr).
    rewrite (app_preflight_eq _ _ _ _ Hm Ho Hr).
    unfold stamp, set_header, preflight_response; cbn [raw_headers].
    destruct (existsb _ _),
      (headers_get "access-control-request-headers" (request_headers req));
      repeat constructor; repeat other_header; reflexivity.
  - destruct (app_inner p req Hpre) as (r & -> & _ & Hplain & _).
    unfold stamp, set_header; cbn [raw_headers].
    repeat constructor; repeat other_header;
      rewrite headers_get_cors_out by done;
      apply (plain_headers_absent _ _ Hplain); not_listed.
Qed.

(** ** No header name twice *)

Lemma filter_absent_id key (hs : list (string * string)) :
  lower key ∉ hs.*1 →
  List.filter (fun kv => negb (String.eqb kv.1 (lower key))) hs = hs.
Proof.
  induction hs as [|[k v] hs IH]; simpl; [done|].
  intros [Hk Hhs]%not_elem_of_cons.
  destruct (String.eqb k (lower key)) eqn:E; simpl.
  - apply String.eqb_eq in E. congruence.
  - by rewrite IH.
Qed.

Lemma headers_set_names key value (hs : list (string * string)) name :
  name ∈ (headers_set key value hs).*1 → name = lower key ∨ name ∈ hs.*1.
Proof.
  induction hs as [|[k v] hs IH]; simpl.
  - intros ->%list_elem_of_singleton. by left.
  - destruct (String.eqb k (lower key)) eqn:E; simpl.
    + intros [->|Hin]%elem_of_cons; [by left|]. right. right.
      apply list_elem_of_fmap in Hin as (kv & -> & Hkv).
      apply list_elem_of_In, filter_In in Hkv as [Hkv _].
      apply list_elem_of_fmap. exists kv. split; [done|].
      by apply list_elem_of_In.
    + intros [->|Hin]%elem_of_cons; [right; by left|].
      destruct (IH Hin); [by left|right; by right].
Qed.

Lemma headers_set_NoDup key value (hs : list (string * string)) :
  NoDup hs.*1 → NoDup (headers_set key value hs).*1.
Proof.
  induction hs as [|[k v] hs IH]; simpl.
  - intros _. apply NoDup_singleton.
  - intros [Hk Hhs]%NoDup_cons.
    destruct (String.eqb k (lower key)) eqn:E; simpl.
    + apply String.eqb_eq in E. subst k.
      rewrite filter_absent_id by done. by apply NoDup_cons.
    + apply NoDup_cons. split; [|by apply IH].
      intros [->|Hin]%headers_set_names; [|done].
      by rewrite String.eqb_refl in E.
Qed.

Lemma stamp_NoDup r : NoDup (raw_headers r).*1 → NoDup (raw_headers (stamp r)).*1.
Proof.
  intros H. unfold stamp, set_header; cbn [raw_headers].
  by do 6 apply headers_set_NoDup.
Qed.

Lemma cors_out_NoDup req r :
  NoDup (raw_headers r).*1 → NoDup (raw_headers (cors_out req r)).*1.
Proof.
  intros H. unfold cors_out.
  destruct (headers_get "origin" _) as [origin|]; [|done].
  unfold cors_send; cbn [raw_headers].
  assert (NoDup (headers_update simple_headers (raw_headers r)).*1) as H'.
  { unfold headers_update, simple_headers; cbn [fold_left fst snd].
    by do 3 apply headers_set_NoDup. }
  destruct (headers_contains "cookie" _); [|done].
  unfold allow_explicit_origin, add_vary_header.
  destruct (headers_get "vary" _); by do 2 apply headers_set_NoDup.
Qed.

(** Property X10.  No response carries two headers of the same name. *)
Theorem response_header_names_unique (p : process) (req : request) :
  NoDup (raw_headers (app p req)).*1.
Proof.
  destruct (is_preflight req) eqn:Hpre.
  - destruct (is_preflight_true_inv _ Hpre) as (Hm & o & m & Ho & Hr).
    rewrite (app_preflight_eq _ _ _ _ Hm Ho Hr). apply stamp_NoDup.
    unfold preflight_response.
    destruct (existsb _ _),
      (headers_get "access-control-request-headers" (request_headers req));
      cbn; literal_NoDup.
  - destruct (app_inner p req Hpre) as (r & -> & _ & [Hnodup _] & _).
    by apply stamp_NoDup, cors_out_NoDup.
Qed.

(** ** What a response depends on *)

(** Property X11.  For a path of main.py's routes the response is a
    function of the method, the path and four facts about the request
    headers: the [Origin], whether there is a [Cookie], and the two
    preflight headers.  The query string, the body and every other header
    have no influence, for any method. *)
Theorem response_depends_on (p : process) (r1 r2 : request) :
  method r1 = method r2 →
  path r1 = path r2 →
  own_path (path r1) →
  headers_get "origin" (request_headers r1) = headers_get "origin" (request_headers r2) →
  headers_contains "cookie" (request_headers r1)
  = headers_contains "cookie" (request_headers r2) →
  headers_get "access-control-request-method" (request_headers r1)
  = headers_get "access-control-request-method" (request_headers r2) →
  headers_get "access-control-request-headers" (request_headers r1)
  = headers_get "access-control-request-headers" (request_headers r2) →
  app p r1 = app p r2.
Proof.
  intros Hm Hp Hown Ho Hc Hrm Hrh.
  assert (is_preflight r1 = is_preflight r2) as Hpre.
  { unfold is_preflight, headers_contains. by rewrite Hm, Ho, Hrm. }
  destruct (is_preflight r1) eqn:H1; symmetry in Hpre.
  - destruct (is_preflight_true_inv _ H1) as (Hm1 & o & m & Ho1 & Hr1).
    rewrite (app_preflight_eq _ r1 o m) by done.
    rewrite (app_preflight_eq _ r2 o m) by congruence.
    by rewrite Hrh.
  - rewrite (app_not_preflight _ r1 H1 Hown).
    rewrite (app_not_preflight _ r2 Hpre) by (by rewrite <- Hp).
    unfold cors_out. by rewrite Hm, Hp, Ho, Hc.
Qed.

Lemma response_depends_on_witness :
  app dev post_games
  = app dev {| method := "POST"; target := "api/games";
               query_params := [("rest_of_path", "elsewhere")];
               request_headers := [("authorization", "Bearer none")];
               request_body := "other"; query_string := "rest_of_path=elsewhere";
               scheme := https; server := None |}.
Proof.
  apply (response_depends_on dev post_games
           {| method := "POST"; target := "api/games";
              query_params := [("rest_of_path", "elsewhere")];
              request_headers := [("authorization", "Bearer none")];
              request_body := "other"; query_string := "rest_of_path=elsewhere";
              scheme := https; server := None |});
    first [reflexivity | split; [reflexivity | not_listed]].
Defined.

(** ** The route registered for [/] *)

(** What the search settles on when the table ends in [z]: a route before
    [z], or [z] itself when nothing before it did as well. *)
Lemma resolve_last rs z req partial :
  match resolve (rs ++ [z])%list req partial with
  | Found r _ =>
      r ∈ rs
      ∨ (Forall (fun r' => ∀ ps, matches r' req ≠ FULL ps) rs
         ∧ ∃ ps, matches z req = FULL ps)
  | WrongMethod r =>
      partial = Some r ∨ r ∈ rs
      ∨ (partial = None ∧ Forall (fun r' => matches r' req = NONE) rs
         ∧ matches z req ≠ NONE)
  | NotFound => True
  end.
Proof.
  revert partial. induction rs as [|r1 rs IH]; intros partial.
  - change ([] ++ [z])%list with [z]. rewrite resolve_cons.
    destruct (matches z req) as [| ps | ps] eqn:Hz; cbn [resolve].
    + destruct partial; [by left | done].
    + destruct partial; [by left|]. right; right. by repeat split.
    + right. split; [constructor | by exists ps].
  - change ((r1 :: rs) ++ [z])%list with (r1 :: (rs ++ [z]))%list. rewrite resolve_cons.
    destruct (matches r1 req) as [| ps1 | ps1] eqn:H1.
    + specialize (IH partial).
      destruct (resolve (rs ++ [z])%list req partial) as [r ps|r|]; [| |done].
      * destruct IH as [Hin|[Hall Hz]]; [left; by right|].
        right. split; [|done]. constructor; [|done]. intros ps'. by rewrite H1.
      * destruct IH as [Hp|[Hin|(Hp & Hall & Hz)]];
          [by left | right; left; by right |].
        right; right. split; [done|]. split; [|done]. by constructor.
    + specialize (IH (match partial with Some r0 => Some r0 | None => Some r1 end)).
      destruct (resolve (rs ++ [z])%list req _) as [r ps|r|]; [| |done].
      * destruct IH as [Hin|[Hall Hz]]; [left; by right|].
        right. split; [|done]. constructor; [|done]. intros ps'. by rewrite H1.
      * destruct IH as [Hp|[Hin|(Hp & _)]].
        -- destruct partial; [by left|]. injection Hp as <-. right; left. by left.
        -- right; left. by right.
        -- by destruct partial.
    + left. by left.
Qed.

(** A path the pattern of [/] accepts is accepted by the wildcard
    pattern as well. *)
Lemma root_path_wildcard name p ps :
  match_path (Exact "/") p = Some ps →
  ∃ ps', match_path (Capture "/" name) p = Some ps'.
Proof.
  unfold match_path. destruct (strip_prefix "/" p) as [rest|]; [|done].
  unfold at_end.
  destruct (String.eqb rest EmptyString) eqn:E1.
  - apply String.eqb_eq in E1. subst rest. by eexists.
  - destruct (String.eqb rest (String LF EmptyString)) eqn:E2; [|done].
    apply String.eqb_eq in E2. subst rest. by eexists.
Qed.

(** Property X12.  The search for a route never settles on the route
    registered for [/]: the wildcard route, registered before it, takes
    the root path as well, so the query parameter [rest_of_path] of that
    route is never read. *)
Theorem root_route_never_selected (req : request) :
  match resolve routes req None with
  | Found r _ | WrongMethod r => route_path r ≠ Exact "/"
  | NotFound => True
  end.
Proof.
  set (w := get (Capture "/" "rest_of_path")
              (fun _ _ path_params => catch_all (path_param "rest_of_path" path_params))).
  set (z := get (Exact "/")
              (fun _ req _ => catch_all (query_param "rest_of_path" "" req))).
  assert (Forall (fun r => route_path r ≠ Exact "/") (take 13 routes)) as Hall.
  { repeat constructor; discriminate. }
  assert (w ∈ take 13 routes) as Hw.
  { apply list_elem_of_In. do 12 right. by left. }
  assert (routes = (take 13 routes ++ [z])%list) as Hroutes by reflexivity.
  assert (matches z req ≠ NONE → matches w req ≠ NONE) as Hnone.
  { unfold matches, w, z, get; cbn [route_path methods].
    destruct (match_path (Exact "/") (path req)) as [ps|] eqn:Hz; [|done].
    destruct (root_path_wildcard "rest_of_path" _ _ Hz) as [ps' ->].
    by destruct (existsb _ _). }
  assert (∀ ps, matches z req = FULL ps → ∃ ps', matches w req = FULL ps') as Hfull.
  { unfold matches, w, z, get; cbn [route_path methods].
    destruct (match_path (Exact "/") (path req)) as [ps0|] eqn:Hz; [|done].
    destruct (root_path_wildcard "rest_of_path" _ _ Hz) as [ps' ->].
    destruct (existsb _ _); [by eexists|done]. }
  pose proof (resolve_last (take 13 routes) z req None) as H.
  rewrite <- Hroutes in H. rewrite Forall_forall in Hall.
  destruct (resolve routes req None) as [r ps|r|]; [| |done].
  - destruct H as [Hin|[Hnot [ps' Hz]]]; [by apply Hall|].
    destruct (Hfull _ Hz) as [ps'' Hw']. rewrite Forall_forall in Hnot.
    by destruct (Hnot w Hw ps'').
  - destruct H as [?|[Hin|(_ & Hno & Hz)]]; [done|by apply Hall|].
    rewrite Forall_forall in Hno. by destruct (Hnone Hz (Hno w Hw)).
Qed.


(** ** Paths main.py's routes do not take (main.py:17-22, 99-105) *)

Lemma HEAD_not_preflight req : method req = "HEAD" → is_preflight req = false.
Proof.
  intros H. unfold is_preflight. rewrite H. cbn [String.eqb Ascii.eqb Bool.eqb].
  by rewrite andb_false_r.
Qed.



(** Property X16.  The documentation routes the [FastAPI] constructor
    registers come first in the table: a GET or HEAD request for one of
    their four paths is answered 200 with the page the framework
    generates, not with the fallback message; [/docs] is the Swagger page
    of [/openapi.json], sent as HTML. *)
Theorem documentation_routes_served (p : process) (req : request) :
  method req = "GET" ∨ method req = "HEAD" →
  path req ∈ framework_paths →
  status_code (app p req) = 200
  ∧ (∃ doc, body (app p req) = Generated doc)
  ∧ (path req = "/docs" →
     body (app p req)
     = Generated (swagger_ui_html "/openapi.json" "GamePathAI API - Swagger UI"
                    "/docs/oauth2-redirect")
     ∧ headers_get "Content-Type" (raw_headers (app p req))
       = Some "text/html; charset=utf-8").
Proof.
  intros Hm Hin.
  assert (is_preflight req = false) as Hpre.
  { destruct Hm; [by apply GET_not_preflight|by apply HEAD_not_preflight]. }
  assert (∃ doc media_type,
            ExceptionMiddleware (Router routes p) req
            = Return {| status_code := 200;
                        raw_headers := [("content-type", media_type)];
                        body := Generated doc |}
            ∧ (path req = "/docs" →
               doc = swagger_ui_html "/openapi.json" "GamePathAI API - Swagger UI"
                       "/docs/oauth2-redirect"
               ∧ media_type = "text/html; charset=utf-8")) as (doc & mt & Hr & Hdocs).
  { destruct req as [m t q hs b qs sc sv]. unfold path in *. cbn [method target] in *.
    apply list_elem_of_In in Hin. simpl in Hin.
    destruct Hin as [Hin|[Hin|[Hin|[Hin|[]]]]];
      injection Hin as Hin; cbv [String.append] in Hin; subst t;
      destruct Hm as [-> | ->];
      (do 2 eexists; split; [vm_compute; reflexivity|]);
      first [ intros _; split; reflexivity | intros [=] ]. }
  rewrite (application_Return _ _ _ _ Hpre Hr : app p req = _).
  rewrite status_code_stamp, status_code_cors_out, body_stamp, body_cors_out.
  cbn [status_code body]. split; [done|]. split; [by exists doc|].
  intros Hp. destruct (Hdocs Hp) as [-> ->]. split; [done|].
  unfold stamp, set_header; cbn [raw_headers]. repeat other_header.
  by rewrite headers_get_cors_out.
Qed.

Lemma documentation_routes_served_witness :
  status_code (app dev (GET "docs")) = 200
  ∧ body (app dev (GET "docs"))
    = Generated (swagger_ui_html "/openapi.json" "GamePathAI API - Swagger UI"
                   "/docs/oauth2-redirect").
Proof.
  destruct (documentation_routes_served dev (GET "docs")) as (Hs & _ & Hd).
  - by left.
  - apply list_elem_of_In. simpl. tauto.
  - split; [exact Hs | exact (proj1 (Hd eq_refl))].
Defined.




(** ** Splitting the key list (main.py:15) *)

Lemma join_cons_char sep c w ws :
  join sep (String c w :: ws) = String c (join sep (w :: ws)).
Proof. by destruct ws. Qed.

Lemma join_split sep s : join (String sep EmptyString) (split sep s) = s.
Proof.
  induction s as [|c s IH]; simpl; [done|].
  destruct (Ascii.eqb c sep) eqn:E.
  - apply Ascii.eqb_eq in E. subst c.
    destruct (split sep s) as [|w ws] eqn:Hs; [by apply split_nonempty in Hs|].
    change (join (String sep EmptyString) (EmptyString :: w :: ws))
      with (String sep (join (String sep EmptyString) (w :: ws))).
    by rewrite IH.
  - destruct (split sep s) as [|w ws] eqn:Hs; [by apply split_nonempty in Hs|].
    by rewrite join_cons_char, IH.
Qed.

Lemma split_length sep s : List.length (split sep s) = S (count_char sep s).
Proof.
  induction s as [|c s IH]; simpl; [done|].
  destruct (Ascii.eqb c sep); simpl; [by rewrite IH|].
  destruct (split sep s) as [|w ws] eqn:Hs; [by apply split_nonempty in Hs|].
  simpl in *. done.
Qed.

Lemma split_fields sep s : Forall (fun w => count_char sep w = 0%nat) (split sep s).
Proof.
  induction s as [|c s IH]; simpl; [by repeat constructor|].
  destruct (Ascii.eqb c sep) eqn:E; [by constructor|].
  destruct (split sep s) as [|w ws] eqn:Hs; [by apply split_nonempty in Hs|].
  apply Forall_cons in IH as [Hw Hws]. constructor; [|done].
  simpl. by rewrite E.
Qed.

(** Property X13.  Joining [API_KEYS] with commas gives back the configured
    value
    exactly: splitting drops nothing, so blanks around a key and empty
    entries are kept as they are. *)
Theorem API_KEYS_round_trip (dotenv os_environ : gmap string string) :
  join "," (API_KEYS (startup dotenv os_environ))
  = getenv (load_dotenv dotenv os_environ) "API_KEYS" "dev-api-key".
Proof. unfold startup; cbn [API_KEYS]. apply join_split. Qed.

(** Property X14.  [API_KEYS] has one entry more than the configured value
    has commas,
    and no entry contains a comma. *)
Theorem API_KEYS_shape (dotenv os_environ : gmap string string) :
  let value := getenv (load_dotenv dotenv os_environ) "API_KEYS" "dev-api-key" in
  List.length (API_KEYS (startup dotenv os_environ)) = S (count_char "," value)
  ∧ Forall (fun key => count_char "," key = 0%nat) (API_KEYS (startup dotenv os_environ)).
Proof.
  unfold startup; cbn [API_KEYS]. split; [apply split_length | apply split_fields].
Qed.

(** ** Which responses lack the six headers *)

(** Property X15.  With any route table under the same stack, a response
    either has each of the six headers exactly once, or it is the response
    [global_exception_handler] made for an unhandled exception, sent as it
    was made. *)
Theorem headers_or_error_response (rs : list route) (p : process) (req : request) :
  (let hs := raw_headers (application rs p req) in
   sole_header "X-No-Redirect" "1" hs
   ∧ sole_header "Cache-Control" "no-cache, no-store, must-revalidate" hs
   ∧ sole_header "Pragma" "no-cache" hs
   ∧ sole_header "Expires" "0" hs
   ∧ sole_header "X-Content-Type-Options" "nosniff" hs
   ∧ sole_header "X-Frame-Options" "DENY" hs)
  ∨ (∃ e, unhandled e ∧ Router rs p req = Raise e
          ∧ application rs p req = global_exception_handler req e).
Proof.
  destruct (is_preflight req) eqn:Hpre.
  - left. destruct (application_preflight req Hpre) as (o & m & H).
    rewrite H. apply stamp_sole_headers.
  - destruct (Router rs p req) as [r|e] eqn:Hr.
    + left. rewrite (application_Return rs p req r Hpre).
      * apply stamp_sole_headers.
      * by apply ExceptionMiddleware_Return.
    + destruct (exc_class e) as [status detail hs|errors|name] eqn:Hc.
      * left.
        rewrite (application_Return rs p req (http_exception_handler status detail hs) Hpre).
        -- apply stamp_sole_headers.
        -- unfold ExceptionMiddleware. by rewrite Hr, Hc.
      * left.
        rewrite (application_Return rs p req
                   (request_validation_exception_handler errors) Hpre).
        -- apply stamp_sole_headers.
        -- unfold ExceptionMiddleware. by rewrite Hr, Hc.
      * right. exists e.
        assert (unhandled e) as Hu by (unfold unhandled; by rewrite Hc).
        split; [done|]. split; [done|]. by apply application_Raise.
Qed.
